(** * climate.c: streaming per-state climate summaries

    A shallow embedding of [src/climate.c] and the properties of its
    aggregation loop.

    The C program keeps an array [states] of [NUM_STATES] pointers to
    heap-allocated [struct climate_info] and, for every line read with
    [fgets], tokenizes it with [strtok], finds or creates the entry of the
    line's state code and updates running sums, counters and extrema.

    Modelling choices, all taken from the source:

    - the array [states] is a list of [NUM_STATES] optional structs
      ([None] is the NULL pointer); every struct is pointed to by one slot
      only, so a pointer to a struct is the index of its slot;
    - the local pointer [new_state] of [analyze_file] is an optional index:
      [None] until the first [malloc] of the call (the variable has no
      initializer);
    - undefined behaviour (a NULL token given to [atol], [atof], [strcmp] or
      [strcpy], a read through the uninitialized [new_state], a read past
      the end of [states], a [strcpy] that overruns [code[3]], a
      floating-point value converted to [unsigned long] out of range) is
      the failure of the option monad: the run produces no table;
    - the floating-point types [double] and [long double], their
      conversions and the libc conversions [atof] and [atol] are the
      parameters of a class [Platform], with one instance in exact rational
      arithmetic and one in IEEE 754 binary arithmetic (binary64 [double];
      [long double] of any precision, x87 extended for x86-64). *)

From Stdlib Require Import ZArith QArith Qround Lia Ascii String.
From Stdlib Require Import Floats.SpecFloat.
From stdpp Require Import base tactics option list strings.

Local Open Scope Z_scope.

(** ** C strings, [strtok] and [fgets] *)

Module CString.

Definition NUL : ascii := Ascii.zero.
Definition TAB : ascii := "009"%char.
Definition NEWLINE : ascii := "010"%char.

(** The C string held in a buffer: the characters before the first NUL. *)
Fixpoint cstr (s : string) : string :=
  match s with
  | EmptyString => EmptyString
  | String c r => if Ascii.eqb c NUL then EmptyString else String c (cstr r)
  end.

(** The fields of [s] between occurrences of [d], empty ones included. *)
Fixpoint fields (d : ascii) (s : string) : list string :=
  match s with
  | EmptyString => [EmptyString]
  | String c r =>
      if Ascii.eqb c d then EmptyString :: fields d r
      else match fields d r with
           | f :: fs => String c f :: fs
           | [] => [String c EmptyString]
           end
  end.

Definition nonempty (s : string) : bool :=
  match s with EmptyString => false | String _ _ => true end.

(** The successive results of [strtok(line, delim)], [strtok(NULL, delim)],
    ... for a one-character [delim]: the maximal non-empty runs of
    characters other than the delimiter; after the last one every call
    returns NULL. *)
Definition strtok (line : string) (delim : ascii) : list string :=
  List.filter nonempty (fields delim (cstr line)).

(** The successive buffers that [fgets(line, line_sz, file)] fills until
    it returns NULL: each takes characters up to and including a newline,
    at most [line_sz - 1] of them. [cur] is the current buffer, reversed,
    and [room] what is left of it. *)
Fixpoint fgets_from (line_sz : nat) (file : string) (cur : string) (room : nat)
  : list string :=
  match file with
  | EmptyString =>
      match cur with EmptyString => [] | _ => [String.rev cur] end
  | String c r =>
      let cur' := String c cur in
      if Ascii.eqb c NEWLINE || (room =? 1)%nat
      then String.rev cur' :: fgets_from line_sz r EmptyString (line_sz - 1)
      else fgets_from line_sz r cur' (room - 1)
  end.

Definition fgets (line_sz : nat) (file : string) : list string :=
  fgets_from line_sz file EmptyString (line_sz - 1).

End CString.

(** ** The C implementation: floating-point types and libc conversions *)

Class Platform : Type := {
  double : Type;
  long_double : Type;
  (** conversions of an integer value ([int] constants, [unsigned long]) *)
  double_of_int : Z -> double;
  ldouble_of_int : Z -> long_double;
  (** promotion [double] to [long double], and the conversion on
      assignment of a [long double] to a [double] object *)
  ldouble_of_double : double -> long_double;
  double_of_ldouble : long_double -> double;
  (** conversion to [unsigned long]: truncation toward zero, undefined when
      the truncated value is not representable *)
  ulong_of_ldouble : long_double -> option Z;
  ld_add : long_double -> long_double -> long_double;
  ld_sub : long_double -> long_double -> long_double;
  ld_mul : long_double -> long_double -> long_double;
  ld_lt : long_double -> long_double -> bool;
  ld_le : long_double -> long_double -> bool;
  (** the [double] literals [1.8] and [459.67] *)
  lit_1_8 : double;
  lit_459_67 : double;
  (** libc *)
  atof : string -> double;
  atol : string -> Z;
}.

(** ** The program *)

Definition NUM_STATES : nat := 50.

(** [unsigned long] is 64 bits wide. *)
Definition ULONG_MODULUS : Z := 2 ^ 64.

Section Climate_info.
Context {P : Platform}.

(** [struct climate_info]. The two dates are not initialized when the
    struct is allocated: [None] is the indeterminate value. *)
Record climate_info : Type := mk_climate_info {
  code : string;
  num_records : Z;
  sum_temperature : long_double;
  sum_humidity : long_double;
  max_temperature : double;
  max_temp_date : option Z;
  min_temperature : double;
  min_temp_date : option Z;
  num_lightning : Z;
  num_snowcover : Z;
  sum_cloudcover : long_double;
}.

End Climate_info.

(** The array [states]: [None] is a NULL slot. *)
Abbreviation table := (list (option climate_info)).

Section Climate.
Context {P : Platform}.

(** [struct climate_info *states[NUM_STATES] = {NULL};] *)
Definition empty_states : table := replicate NUM_STATES None.

(** [findStateIndex]: the loop reads [states[i]] for i = 0, 1, ... until a
    NULL slot or a slot with the code; reading past the last slot of the
    array is undefined. *)
Fixpoint findStateIndex_from (i : Z) (states : table) (stateCode : string)
  : option Z :=
  match states with
  | [] => None
  | None :: _ => Some (if (i =? 0)%Z then -50 else - i)
  | Some s :: rest =>
      if String.eqb (code s) stateCode then Some i
      else findStateIndex_from (i + 1) rest stateCode
  end.

Definition findStateIndex (states : table) (stateCode : string) : option Z :=
  findStateIndex_from 0 states stateCode.

(** Field assignments. *)
Definition set_num_records (v : Z) (a : climate_info) : climate_info :=
  mk_climate_info (code a) v (sum_temperature a) (sum_humidity a)
    (max_temperature a) (max_temp_date a) (min_temperature a)
    (min_temp_date a) (num_lightning a) (num_snowcover a) (sum_cloudcover a).

Definition set_sum_temperature (v : long_double) (a : climate_info) : climate_info :=
  mk_climate_info (code a) (num_records a) v (sum_humidity a)
    (max_temperature a) (max_temp_date a) (min_temperature a)
    (min_temp_date a) (num_lightning a) (num_snowcover a) (sum_cloudcover a).

Definition set_sum_humidity (v : long_double) (a : climate_info) : climate_info :=
  mk_climate_info (code a) (num_records a) (sum_temperature a) v
    (max_temperature a) (max_temp_date a) (min_temperature a)
    (min_temp_date a) (num_lightning a) (num_snowcover a) (sum_cloudcover a).

Definition set_max (v : double) (d : Z) (a : climate_info) : climate_info :=
  mk_climate_info (code a) (num_records a) (sum_temperature a) (sum_humidity a)
    v (Some d) (min_temperature a)
    (min_temp_date a) (num_lightning a) (num_snowcover a) (sum_cloudcover a).

Definition set_min (v : double) (d : Z) (a : climate_info) : climate_info :=
  mk_climate_info (code a) (num_records a) (sum_temperature a) (sum_humidity a)
    (max_temperature a) (max_temp_date a) v
    (Some d) (num_lightning a) (num_snowcover a) (sum_cloudcover a).

Definition set_num_lightning (v : Z) (a : climate_info) : climate_info :=
  mk_climate_info (code a) (num_records a) (sum_temperature a) (sum_humidity a)
    (max_temperature a) (max_temp_date a) (min_temperature a)
    (min_temp_date a) v (num_snowcover a) (sum_cloudcover a).

Definition set_num_snowcover (v : Z) (a : climate_info) : climate_info :=
  mk_climate_info (code a) (num_records a) (sum_temperature a) (sum_humidity a)
    (max_temperature a) (max_temp_date a) (min_temperature a)
    (min_temp_date a) (num_lightning a) v (sum_cloudcover a).

Definition set_sum_cloudcover (v : long_double) (a : climate_info) : climate_info :=
  mk_climate_info (code a) (num_records a) (sum_temperature a) (sum_humidity a)
    (max_temperature a) (max_temp_date a) (min_temperature a)
    (min_temp_date a) (num_lightning a) (num_snowcover a) v.

(** [malloc] followed by [strcpy(new_state->code, state_code)] and the
    eight initializations of lines 181-188. [code] is a [char[3]]: a
    state code of more than two characters overruns it. *)
Definition new_climate_info (state_code : string) : option climate_info :=
  if (String.length state_code <=? 2)%nat then
    Some (mk_climate_info state_code 0
            (ldouble_of_int 0) (ldouble_of_int 0)
            (double_of_int (-1000)) None
            (double_of_int 1000) None
            0 0 (ldouble_of_int 0))
  else None.

(** The struct a slot points to; a NULL or out-of-range slot has none. *)
Definition deref (states : table) (p : nat) : option climate_info :=
  mjoin (states !! p).

(** An update of the struct that slot [p] points to. *)
Definition store (states : table) (p : nat)
    (f : climate_info -> option climate_info) : option table :=
  a ← deref states p;
  a' ← f a;
  Some (<[p := Some a']> states).

(** The same through the pointer [new_state]. *)
Definition store_new (states : table) (new_state : option nat)
    (f : climate_info -> option climate_info) : option table :=
  p ← new_state;
  store states p f.

(** [n += v] for an [unsigned long n] and a [long double v]: [n] is
    converted to [long double], the sum is converted back. *)
Definition ulong_add_ld (n : Z) (v : long_double) : option Z :=
  ulong_of_ldouble (ld_add (ldouble_of_int n) v).

(** Line 263: [(temperature_val * 1.8) - 459.67], in [long double]. *)
Definition fahrenheit (temperature_val : long_double) : long_double :=
  ld_sub (ld_mul temperature_val (ldouble_of_double lit_1_8))
         (ldouble_of_double lit_459_67).

(** Lines 268-273 and 275-280. *)
Definition update_max (temperature_val : long_double) (timestamp_long : Z)
    (a : climate_info) : climate_info :=
  if ld_lt (ldouble_of_double (max_temperature a)) temperature_val
  then set_max (double_of_ldouble temperature_val) timestamp_long a
  else a.

Definition update_min (temperature_val : long_double) (timestamp_long : Z)
    (a : climate_info) : climate_info :=
  if ld_lt temperature_val (ldouble_of_double (min_temperature a))
  then set_min (double_of_ldouble temperature_val) timestamp_long a
  else a.

(** The state of the loop of [analyze_file]: the array and [new_state]. *)
Definition loop_state : Type := table * option nat.

(** One iteration of the [while] loop of [analyze_file] (lines 166-281) on
    the buffer [line]. *)
Definition analyze_line (st : loop_state) (line : string) : option loop_state :=
  let '(states, new_state) := st in
  let tokens := CString.strtok line CString.TAB in
  (* state code token *)
  state_code ← tokens !! 0%nat;
  state_index ← findStateIndex states state_code;
  '(states, new_state, state_index) ←
    (if state_index <? 0 then
       fresh ← new_climate_info state_code;
       let state_index :=
         if state_index =? -50 then 0 else state_index * -1 in
       Some (<[Z.to_nat state_index := Some fresh]> states,
             Some (Z.to_nat state_index), state_index)
     else Some (states, new_state, state_index));
  states ← store states (Z.to_nat state_index)
    (λ a, Some (set_num_records ((num_records a + 1) mod ULONG_MODULUS) a));
  (* timestamp token *)
  timestamp ← tokens !! 1%nat;
  let timestamp_long := Z.quot (atol timestamp) 1000 in
  (* geolocation token: read, not used *)
  (* humidity token *)
  humidity ← tokens !! 3%nat;
  let humidity_val := ldouble_of_double (atof humidity) in
  states ← store_new states new_state
    (λ a, Some (set_sum_humidity (ld_add (sum_humidity a) humidity_val) a));
  (* snow token *)
  snow ← tokens !! 4%nat;
  let snow_val := ldouble_of_double (atof snow) in
  states ← store_new states new_state
    (λ a, n ← ulong_add_ld (num_snowcover a) snow_val;
          Some (set_num_snowcover n a));
  (* cloud coverage token *)
  cloudcover ← tokens !! 5%nat;
  let cloudcover_val := ldouble_of_double (atof cloudcover) in
  states ← store_new states new_state
    (λ a, Some (set_sum_cloudcover (ld_add (sum_cloudcover a) cloudcover_val) a));
  (* lightning token *)
  lightning ← tokens !! 6%nat;
  let lightning_val := ldouble_of_double (atof lightning) in
  states ← store_new states new_state
    (λ a, n ← ulong_add_ld (num_lightning a) lightning_val;
          Some (set_num_lightning n a));
  (* pressure token: read, not used *)
  (* surface temperature token *)
  temperature ← tokens !! 8%nat;
  let temperature_val := fahrenheit (ldouble_of_double (atof temperature)) in
  states ← store_new states new_state
    (λ a, Some (set_sum_temperature (ld_add (sum_temperature a) temperature_val) a));
  states ← store_new states new_state
    (λ a, Some (update_max temperature_val timestamp_long a));
  states ← store_new states new_state
    (λ a, Some (update_min temperature_val timestamp_long a));
  Some (states, new_state).

Fixpoint analyze_lines (lines : list string) (st : loop_state)
  : option loop_state :=
  match lines with
  | [] => Some st
  | line :: rest => st' ← analyze_line st line; analyze_lines rest st'
  end.

(** [analyze_file]: [line_sz] is 100, [new_state] starts uninitialized,
    [num_states] is not used. *)
Definition line_sz : nat := 100.

Definition analyze_file (file : string) (states : table) (num_states : nat)
  : option table :=
  fst <$> analyze_lines (CString.fgets line_sz file) (states, None).

(** The loop of [main] over [argv[1..]]: a file is its content, or [None]
    when [fopen] returns NULL. *)
Fixpoint main_loop (files : list (option string)) (states : table)
  : option table :=
  match files with
  | [] => Some states
  | None :: rest => main_loop rest states
  | Some file :: rest =>
      states' ← analyze_file file states NUM_STATES;
      main_loop rest states'
  end.

(** What [main] ends with: the usage message, the table given to
    [print_report], or undefined behaviour. *)
Inductive outcome : Type :=
| Usage
| Report (states : table)
| Undefined.

Definition main (files : list (option string)) : outcome :=
  match files with
  | [] => Usage
  | _ => match main_loop files empty_states with
         | Some states => Report states
         | None => Undefined
         end
  end.

End Climate.

Arguments analyze_line : simpl never.
Arguments analyze_file : simpl never.

(** ** Decimal numerals, as [strtol] and [strtod] read them *)

Module Decimal.

(** [isspace] in the C locale. *)
Definition isspace (c : ascii) : bool :=
  let n := nat_of_ascii c in
  ((n =? 32) || ((9 <=? n) && (n <=? 13)))%nat.

Definition digit (c : ascii) : option Z :=
  let n := Z.of_nat (nat_of_ascii c) in
  if (48 <=? n) && (n <=? 57) then Some (n - 48) else None.

Fixpoint skip_space (s : string) : string :=
  match s with
  | String c r => if isspace c then skip_space r else s
  | EmptyString => s
  end.

(** An optional sign: [true] for a minus. *)
Definition sign (s : string) : bool * string :=
  match s with
  | String "-" r => (true, r)
  | String "+" r => (false, r)
  | _ => (false, s)
  end.

(** The longest prefix of digits, appended to the numeral [acc]: its
    value, how many digits were read, and the rest. *)
Fixpoint digits (s : string) (acc : Z) (count : nat) : Z * nat * string :=
  match s with
  | String c r =>
      match digit c with
      | Some d => digits r (10 * acc + d) (S count)
      | None => (acc, count, s)
      end
  | EmptyString => (acc, count, s)
  end.

Definition pow10 (k : nat) : positive := Nat.iter k (Pos.mul 10) 1%positive.

Definition LONG_MAX : Z := 2 ^ 63 - 1.
Definition LONG_MIN : Z := - 2 ^ 63.

(** [atol] as [strtol(s, NULL, 10)] of glibc: white space, a sign, the
    digits; 0 when there is none; out-of-range values are clamped. *)
Definition strtol (s : string) : Z :=
  let '(neg, r) := sign (skip_space s) in
  let '(m, _, _) := digits r 0 0 in
  let v := if neg : bool then - m else m in
  Z.max LONG_MIN (Z.min LONG_MAX v).

(** The decimal numeral that [strtod] reads when the text is white space,
    a sign, digits and an optional fraction (the form of every numeric
    field of the TDV format): the sign, [m] and [k] of the value
    [m / 10^k]; the value is 0 when no digit is present. Exponents,
    hexadecimal numerals, infinities and NaN are not read. *)
Definition decimal (s : string) : bool * Z * nat :=
  let '(neg, r) := sign (skip_space s) in
  let '(m, n1, r1) := digits r 0 0 in
  match r1 with
  | String "." r2 =>
      let '(m', n2, _) := digits r2 m 0 in
      if ((n1 + n2)%nat =? 0)%nat then (false, 0, 0%nat) else (neg, m', n2)
  | _ => if (n1 =? 0)%nat then (false, 0, 0%nat) else (neg, m, 0%nat)
  end.

End Decimal.

(** ** Exact arithmetic: both floating types are the rationals *)

Module Exact.

Definition trunc (q : Q) : Z :=
  if Qle_bool 0 q then Qfloor q else Qceiling q.

Definition to_ulong (q : Q) : option Z :=
  let v := trunc q in
  if (0 <=? v) && (v <? ULONG_MODULUS) then Some v else None.

Definition strtod (s : string) : Q :=
  let '(neg, m, k) := Decimal.decimal s in
  Qred (Qmake (if neg : bool then - m else m) (Decimal.pow10 k)).

#[export] Instance platform : Platform := {|
  double := Q;
  long_double := Q;
  double_of_int := inject_Z;
  ldouble_of_int := inject_Z;
  ldouble_of_double := λ x, x;
  double_of_ldouble := λ x, x;
  ulong_of_ldouble := to_ulong;
  ld_add := λ x y, Qred (x + y);
  ld_sub := λ x y, Qred (x - y);
  ld_mul := λ x y, Qred (x * y);
  ld_lt := λ x y, negb (Qle_bool y x);
  ld_le := Qle_bool;
  lit_1_8 := 9 # 5;
  lit_459_67 := 45967 # 100;
  atof := strtod;
  atol := Decimal.strtol;
|}.

End Exact.

(** ** IEEE 754 binary arithmetic

    [double] is binary64; [long double] has [prec] bits of precision and
    exponents below [emax]: 64 and 16384 for the x87 extended format of
    x86-64, 53 and 1024 where it is [double], 113 and 16384 for binary128.
    Every operation rounds to nearest, ties to even. *)

Module IEEE.

Section Format.
Variables prec emax : Z.

(** The value of [x] rounded to the format. *)
Definition round (x : spec_float) : spec_float :=
  match x with
  | S754_finite s m e => binary_normalize prec emax (cond_Zopp s (Zpos m)) e s
  | _ => x
  end.

Definition of_int (n : Z) : spec_float := binary_normalize prec emax n 0 false.

(** [m / 10^k], correctly rounded. *)
Definition of_decimal (neg : bool) (m : Z) (k : nat) : spec_float :=
  match m with
  | Zpos p => SFdiv prec emax (S754_finite neg p 0)
                (S754_finite false (Decimal.pow10 k) 0)
  | _ => S754_zero neg
  end.
End Format.

(** Truncation toward zero of a finite value. *)
Definition trunc (x : spec_float) : option Z :=
  match x with
  | S754_zero _ => Some 0
  | S754_finite s m e =>
      let mag := if 0 <=? e then Zpos m * 2 ^ e else Zpos m / 2 ^ (- e) in
      Some (cond_Zopp s mag)
  | _ => None
  end.

Definition to_ulong (x : spec_float) : option Z :=
  v ← trunc x;
  if (0 <=? v) && (v <? ULONG_MODULUS) then Some v else None.

Definition strtod (s : string) : spec_float :=
  let '(neg, m, k) := Decimal.decimal s in of_decimal 53 1024 neg m k.

Definition platform (prec emax : Z) : Platform := {|
  double := spec_float;
  long_double := spec_float;
  double_of_int := of_int 53 1024;
  ldouble_of_int := of_int prec emax;
  ldouble_of_double := round prec emax;
  double_of_ldouble := round 53 1024;
  ulong_of_ldouble := to_ulong;
  ld_add := SFadd prec emax;
  ld_sub := SFsub prec emax;
  ld_mul := SFmul prec emax;
  ld_lt := SFltb;
  ld_le := SFleb;
  lit_1_8 := of_decimal 53 1024 false 18 1;
  lit_459_67 := of_decimal 53 1024 false 45967 2;
  atof := strtod;
  atol := Decimal.strtol;
|}.

Definition x87 : Platform := platform 64 16384.
Definition binary64 : Platform := platform 53 1024.
Definition binary128 : Platform := platform 113 16384.

End IEEE.

(** ** A line as a record, and the fold of a record into a struct

    The loop body reads seven of the nine tokens. [line_record] collects what
    it reads from a line and [fold_record] what it then does to the struct
    that [new_state] points to; [analyze_line_eq] below relates them to
    [analyze_line]. *)

(** The sum of a list of integers. *)
Definition Zsum (l : list Z) : Z := foldr Z.add 0 l.

Section Views.
Context {P : Platform}.

Record record : Type := mk_record {
  state_code : string;
  timestamp_long : Z;
  humidity_val : long_double;
  snow_val : long_double;
  cloudcover_val : long_double;
  lightning_val : long_double;
  temperature_val : long_double;   (* in Fahrenheit *)
}.

Definition line_record (line : string) : option record :=
  let tokens := CString.strtok line CString.TAB in
  c ← tokens !! 0%nat;
  ts ← tokens !! 1%nat;
  h ← tokens !! 3%nat;
  s ← tokens !! 4%nat;
  cc ← tokens !! 5%nat;
  l ← tokens !! 6%nat;
  t ← tokens !! 8%nat;
  Some (mk_record c (Z.quot (atol ts) 1000)
          (ldouble_of_double (atof h)) (ldouble_of_double (atof s))
          (ldouble_of_double (atof cc)) (ldouble_of_double (atof l))
          (fahrenheit (ldouble_of_double (atof t)))).

Definition fold_record (r : record) (a : climate_info) : option climate_info :=
  let a := set_sum_humidity (ld_add (sum_humidity a) (humidity_val r)) a in
  n ← ulong_add_ld (num_snowcover a) (snow_val r);
  let a := set_num_snowcover n a in
  let a := set_sum_cloudcover (ld_add (sum_cloudcover a) (cloudcover_val r)) a in
  n ← ulong_add_ld (num_lightning a) (lightning_val r);
  let a := set_num_lightning n a in
  let a := set_sum_temperature (ld_add (sum_temperature a) (temperature_val r)) a in
  let a := update_max (temperature_val r) (timestamp_long r) a in
  Some (update_min (temperature_val r) (timestamp_long r) a).

(** Lines 171-200: the slot of the state code, created when absent, and
    [new_state] afterwards. *)
Definition get_or_create (states : table) (new_state : option nat)
    (state_code : string) : option (table * option nat * Z) :=
  state_index ← findStateIndex states state_code;
  if state_index <? 0 then
    fresh ← new_climate_info state_code;
    let state_index := if state_index =? -50 then 0 else state_index * -1 in
    Some (<[Z.to_nat state_index := Some fresh]> states,
          Some (Z.to_nat state_index), state_index)
  else Some (states, new_state, state_index).

(** Line 202. *)
Definition count_record (a : climate_info) : climate_info :=
  set_num_records ((num_records a + 1) mod ULONG_MODULUS) a.

(** [max_temperature >= min_temperature], on [double]. *)
Definition max_ge_min (a : climate_info) : bool :=
  ld_le (ldouble_of_double (min_temperature a))
        (ldouble_of_double (max_temperature a)).

(** The temperature lies strictly between the two initial values. *)
Definition between_sentinels (t : long_double) : bool :=
  ld_lt (ldouble_of_double (double_of_int (-1000))) t
  && ld_lt t (ldouble_of_double (double_of_int 1000)).

(** The first [k] slots of the array are in use, the others are NULL. *)
Definition populated (k : nat) (states : table) : Prop :=
  length states = NUM_STATES ∧
  ∀ i, (i < NUM_STATES)%nat →
       if decide (i < k)%nat then ∃ a, states !! i = Some (Some a)
       else states !! i = Some None.

(** No struct of the array has the code. *)
Definition absent (c : string) (states : table) : Prop :=
  ∀ i a, states !! i = Some (Some a) → code a ≠ c.

Implicit Types (states : table) (a : climate_info) (r : record).

(** The scan stops at slot [j]: every slot before it holds a struct of
    another code. *)
Definition scanned (c : string) (j : nat) states : Prop :=
  ∀ j', (j' < j)%nat → ∃ b, states !! j' = Some (Some b) ∧ code b ≠ c.

(** The struct after the sums and counters of [r] are added, before the
    extrema are looked at. *)
Definition summed r (n_snow n_lightning : Z) a : climate_info :=
  mk_climate_info (code a) (num_records a)
    (ld_add (sum_temperature a) (temperature_val r))
    (ld_add (sum_humidity a) (humidity_val r))
    (max_temperature a) (max_temp_date a)
    (min_temperature a) (min_temp_date a)
    n_lightning n_snow
    (ld_add (sum_cloudcover a) (cloudcover_val r)).

(** Every struct of the array has ordered extrema. *)
Definition ordered states : Prop :=
  ∀ q a, states !! q = Some (Some a) → max_ge_min a = true.

(** Does the record of the line, if it has one, lie between the initial
    values of the extrema? *)
Definition line_in_range (line : string) : bool :=
  match line_record line with
  | Some r => between_sentinels (temperature_val r)
  | None => true
  end.

(** Are all records of all files that open between the initial values? *)
Definition files_in_range (files : list (option string)) : bool :=
  forallb (λ file,
             match file with
             | Some content => forallb line_in_range (CString.fgets line_sz content)
             | None => true
             end) files.

(** What the report prints of the extrema. *)
Definition extrema (a : climate_info)
  : double * option Z * double * option Z :=
  (max_temperature a, max_temp_date a, min_temperature a, min_temp_date a).

(** The line is a record of the state [c] whose snow and lightning fields
    are the integers [ks] and [kl], not negative. *)
Definition flagged (c : string) (line : string) (k : Z * Z) : Prop :=
  ∃ r, line_record line = Some r ∧ state_code r = c ∧
       snow_val r = ldouble_of_double (double_of_int k.1) ∧
       lightning_val r = ldouble_of_double (double_of_int k.2) ∧
       0 ≤ k.1 ∧ 0 ≤ k.2.

(** The line is a record [r] of the state [c]. *)
Definition recorded (c : string) (line : string) r : Prop :=
  line_record line = Some r ∧ state_code r = c.

(** An [unsigned long] counter, from [n], after [+= v] for each of the
    [long double] values [vs] in turn. *)
Definition add_flags (n : Z) (vs : list long_double) : option Z :=
  foldl (λ acc v, n ← acc; ulong_add_ld n v) (Some n) vs.

(** Slot 0 holds the struct of [c], [new_state] points to it, and its
    counters are [s] and [l]. *)
Definition counting (c : string) (s l : Z) (st : loop_state) : Prop :=
  ∃ a rest, st = (Some a :: rest, Some 0%nat) ∧ code a = c ∧
            num_snowcover a = s ∧ num_lightning a = l.

End Views.

(** ** What the proofs ask of the arithmetic *)

(** Order and rounding: [<] implies [<=]; [<=] is transitive, and reflexive
    on what is comparable at all (a NaN is not); the conversion of a
    [long double] to [double] is monotone; a [double] converted to
    [long double] and back is unchanged. These are facts of IEEE 754 binary
    arithmetic with rounding to nearest, for a [long double] at least as
    wide as [double]. *)
Class OrderLaws (P : Platform) : Prop := {
  ld_lt_le : ∀ x y, ld_lt x y = true → ld_le x y = true;
  ld_le_trans : ∀ x y z, ld_le x y = true → ld_le y z = true → ld_le x z = true;
  ld_le_refl_r : ∀ x y, ld_le x y = true → ld_le y y = true;
  double_of_ldouble_mono : ∀ x y,
    ld_le x y = true →
    ld_le (ldouble_of_double (double_of_ldouble x))
          (ldouble_of_double (double_of_ldouble y)) = true;
  double_round_trip : ∀ d : double,
    double_of_ldouble (ldouble_of_double d) = d;
}.

(** Small integers are added exactly. *)
Class CountLaws (P : Platform) : Prop := {
  ulong_add_int : ∀ n k, 0 ≤ n → 0 ≤ k → n + k < 2 ^ 53 →
    ulong_of_ldouble
      (ld_add (ldouble_of_int n) (ldouble_of_double (double_of_int k)))
    = Some (n + k);
}.

(** The conversion of a [long double] to [double] and back is exact: the
    case of a platform whose [long double] is [double], and of exact
    arithmetic. *)
Class ExactStore (P : Platform) : Prop := {
  store_exact : ∀ t, ldouble_of_double (double_of_ldouble t) = t;
  ld_lt_irrefl : ∀ t, ld_lt t t = false;
}.

(** ** Sample data: lines of the TDV format *)

Module Sample.

Definition TAB : string := String CString.TAB EmptyString.
Definition NL : string := String CString.NEWLINE EmptyString.

Definition line (fs : list string) : string := String.concat TAB fs +:+ NL.

(** A record of the state [c] at [ms] milliseconds with the given snow
    flag and temperature in Kelvin. *)
Definition obs (c ms snow kelvin : string) : string :=
  line [c; ms; "9prcjqk3yc80"; "93.0"; snow; "100.0"; "0.0"; "95644.0"; kelvin].

(** The first two lines of the example in the header of climate.c. *)
Definition ca1 : string :=
  line ["CA"; "1428300000000"; "9prcjqk3yc80"; "93.0"; "0.0"; "100.0"; "0.0";
        "95644.0"; "277.58716"].
Definition ca2 : string :=
  line ["CA"; "1430308800000"; "9prc9sgwvw80"; "4.0"; "0.0"; "100.0"; "0.0";
        "99226.0"; "282.63037"].
Definition tn1 : string :=
  line ["TN"; "1428559200000"; "dn6m9qkb2p00"; "61.0"; "1.0"; "0.0"; "1.0";
        "102112.0"; "285.07513"].
Definition wa1 : string :=
  line ["WA"; "1428192000000"; "c23nb62w20st"; "57.0"; "0.0"; "100.0"; "0.0";
        "101765.0"; "285.21332"].

End Sample.

(** ** Sample runs *)

(** Three files, the second of which does not open. *)
Definition sample_files : list (option string) :=
  [Some (Sample.ca1 +:+ Sample.ca2 +:+ Sample.tn1); None; Some Sample.wa1].

(** The table [main] ends with on them, in exact arithmetic. *)
Definition sample_report : list (option (@climate_info Exact.platform)) :=
  Eval vm_compute in
    match @main_loop Exact.platform sample_files empty_states with
    | Some states => states
    | None => []
    end.

(** Its first struct. *)
Definition sample_ca : @climate_info Exact.platform :=
  Eval vm_compute in
    match sample_report with
    | Some a :: _ => a
    | _ => @mk_climate_info Exact.platform EmptyString 0 0%Q 0%Q 0%Q None 0%Q None 0 0 0%Q
    end.

(** The record of the first sample line, and the loop state after it. *)
Definition sample_record : @record Exact.platform :=
  Eval vm_compute in
    match @line_record Exact.platform Sample.ca1 with
    | Some r => r
    | None => @mk_record Exact.platform EmptyString 0 0%Q 0%Q 0%Q 0%Q 0%Q
    end.

Definition sample_step : list (option (@climate_info Exact.platform)) * option nat :=
  Eval vm_compute in
    match @analyze_line Exact.platform (empty_states, None) Sample.ca1 with
    | Some st => st
    | None => ([], None)
    end.

(** Files of [n] lines with [n] different two-letter state codes: AA, AB,
    ..., AZ, BA, ... *)
Definition nth_state_code (n : nat) : string :=
  String (ascii_of_nat (65 + n / 26))
    (String (ascii_of_nat (65 + n mod 26)) EmptyString).

Definition file_of_states (n : nat) : string :=
  String.concat EmptyString
    (map (λ k, Sample.obs (nth_state_code k) "1428300000000" "0.0" "277.58716")
         (seq 0 n)).

(** Three CA lines with snow fields 1, 0 and 2. *)
Definition sample_flags_file : string :=
  Sample.obs "CA" "1428300000000" "1.0" "277.58716"
  +:+ Sample.obs "CA" "1428303600000" "0.0" "278.0"
  +:+ Sample.obs "CA" "1428307200000" "2.0" "279.5".

(** What a run leaves in the slots in use: code, record count and whether
    the extrema are ordered. *)
Definition slot_summary {P : Platform} (states : table)
  : list (string * Z * bool) :=
  omap (λ o : option climate_info,
          match o with
          | Some a => Some (code a, num_records a, max_ge_min a)
          | None => None
          end) states.

(** ** The array as a list of structs, and what a run reads and reports *)

Section Lists.
Context {P : Platform}.
Implicit Types (l : list climate_info) (states : table) (a : climate_info).
Implicit Types (t : list (string * Z)) (cs seen : list string) (c : string).
Implicit Types (r : record).

(** The array whose first slots point to the structs [l], in order, and
    whose other slots are NULL. *)
Definition slots l : table :=
  (Some <$> l) ++ replicate (NUM_STATES - length l) None.

(** An update of the [i]-th struct. *)
Definition update l (i : nat) (f : climate_info → option climate_info)
  : option (list climate_info) :=
  a ← l !! i; a' ← f a; Some (<[i := a']> l).

(** Lines 171-200 on the list of structs: the first struct with the code,
    or a new struct after the last one while there are fewer than
    [NUM_STATES]. *)
Definition find_or_append l (ns : option nat) (c : string)
  : option (list climate_info * option nat * nat) :=
  match list_find (λ a, code a = c) l with
  | Some (i, _) => Some (l, ns, i)
  | None =>
      if decide (length l < NUM_STATES)%nat then
        fresh ← new_climate_info c;
        Some (l ++ [fresh], Some (length l), length l)
      else None
  end.

(** One iteration of the loop on the list of structs. *)
Definition step (st : list climate_info * option nat) (line : string)
  : option (list climate_info * option nat) :=
  r ← line_record line;
  '(l1, ns1, i) ← find_or_append st.1 st.2 (state_code r);
  l2 ← update l1 i (λ a, Some (count_record a));
  p ← ns1;
  l3 ← update l2 p (fold_record r);
  Some (l3, ns1).

Fixpoint steps (lines : list string) (st : list climate_info * option nat)
  : option (list climate_info * option nat) :=
  match lines with
  | [] => Some st
  | line :: rest => st' ← step st line; steps rest st'
  end.

(** The negative result of [findStateIndex] for a first NULL slot [j]. *)
Definition encode_slot (j : Z) : Z := if j =? 0 then -50 else - j.

(** The codes seen so far, with one more. *)
Definition add_code (seen : list string) (c : string) : list string :=
  if decide (c ∈ seen) then seen else seen ++ [c].

(** The distinct codes of a list in the order of their first occurrence. *)
Definition first_seen (cs : list string) : list string := foldl add_code [] cs.

(** How many times [c] occurs. *)
Definition occurrences (c : string) (cs : list string) : Z :=
  Z.of_nat (length (filter (λ x, x = c) cs)).

(** One more record of the state [c] in a list of codes with their record
    counts, as line 202 counts it in an [unsigned long]. *)
Definition bump (c : string) (t : list (string * Z)) : list (string * Z) :=
  match list_find (λ x, x.1 = c) t with
  | Some (i, (_, n)) => <[i := (c, (n + 1) mod ULONG_MODULUS)]> t
  | None => t ++ [(c, 1)]
  end.

(** The tally of the codes [seen]: the distinct codes in the order of
    first appearance, each with the number of its occurrences as an
    [unsigned long]. *)
Definition tally_of seen t : Prop :=
  t.*1 = first_seen seen ∧
  ∀ i c n, t !! i = Some (c, n) → n = occurrences c seen mod ULONG_MODULUS.

(** The state code of a line: its first token. *)
Definition line_code (line : string) : option string :=
  CString.strtok line CString.TAB !! 0%nat.

(** The buffers that the calls of [analyze_file] by [main] process, in
    order, and their state codes. *)
Definition input_lines (files : list (option string)) : list string :=
  concat (map (λ file : option string,
                 match file with
                 | Some content => CString.fgets line_sz content
                 | None => []
                 end) files).

Definition input_codes (files : list (option string)) : list string :=
  omap line_code (input_lines files).

(** The codes of the structs of the array, in the order of the slots. *)
Definition codes states : list string := code <$> omap id states.

(** Codes and record counts of a list of structs. *)
Definition tally l : list (string * Z) := (λ a, (code a, num_records a)) <$> l.

(** The loop of [main] on the list of structs. *)
Fixpoint runs (files : list (option string)) l : option (list climate_info) :=
  match files with
  | [] => Some l
  | None :: rest => runs rest l
  | Some file :: rest =>
      st ← steps (CString.fgets line_sz file) (l, None);
      runs rest st.1
  end.

(** A state code that fits [char code[3]] and is not empty. *)
Definition code_fits c : Prop := (1 ≤ String.length c ≤ 2)%nat.

(** What holds of the structs after the lines whose codes are [seen]. *)
Definition run_inv seen l : Prop :=
  tally_of seen (tally l) ∧ (length l ≤ NUM_STATES)%nat ∧
  Forall (λ a, code_fits (code a)) l.

(** The first loop of [print_report] (lines 287-293): the codes of the
    slots in use, each followed by a space. Reading [states[i]] past the
    array is undefined. *)
Fixpoint print_codes states (num_states : nat) : option string :=
  match num_states with
  | O => Some EmptyString
  | S n =>
      match states with
      | [] => None
      | Some info :: rest =>
          out ← print_codes rest n; Some (code info +:+ " " +:+ out)
      | None :: rest => print_codes rest n
      end
  end.

(** Lines 286-294 of [print_report]. *)
Definition print_report_states_found states (num_states : nat) : option string :=
  out ← print_codes states num_states;
  Some ("States found:" +:+ String CString.NEWLINE EmptyString
        +:+ out +:+ String CString.NEWLINE EmptyString).

(** The codes, each followed by a space. *)
Definition spaced cs : string := foldr (λ c out, c +:+ " " +:+ out) EmptyString cs.

(** The number of buffers read whose first token is [c]. *)
Definition lines_of c (files : list (option string)) : Z :=
  Z.of_nat (length (filter (λ line, line_code line = Some c) (input_lines files))).

(** The array during the run of a file that started from [states0]. *)
Definition kept (states0 : table) (st : loop_state) : Prop :=
  length st.1 = NUM_STATES ∧
  (∀ q a, states0 !! q = Some (Some a) →
          ∃ k, st.1 !! q = Some (Some (set_num_records k a))) ∧
  (∀ p, st.2 = Some p → states0 !! p = Some None).

(** Lines 202-280 for a record of the state whose struct is [a], when
    [new_state] points to [a]. *)
Definition add_record a r : option climate_info := fold_record r (count_record a).

Fixpoint add_records a (rs : list record) : option climate_info :=
  match rs with
  | [] => Some a
  | r :: rs => a' ← add_record a r; add_records a' rs
  end.

(** No character of the string is a newline. *)
Fixpoint newline_free (s : string) : bool :=
  match s with
  | EmptyString => true
  | String c r => negb (Ascii.eqb c CString.NEWLINE) && newline_free r
  end.

(** A buffer: at least one character and at most [n], with no newline
    before the last character. *)
Definition buffer (n : nat) (b : string) : Prop :=
  (1 ≤ String.length b ≤ n)%nat ∧
  ∃ body last, b = body +:+ String last EmptyString ∧ newline_free body = true.

(** Both dates of the struct have been assigned. *)
Definition has_dates (a : climate_info) : Prop :=
  is_Some (max_temp_date a) ∧ is_Some (min_temp_date a).

(** Every struct of the array has both dates. *)
Definition dated (states : table) : Prop :=
  ∀ q a, states !! q = Some (Some a) → has_dates a.

End Lists.

(** ** More sample inputs *)

Definition sample_slots : list (@climate_info Exact.platform) :=
  Eval vm_compute in omap id sample_report.

(** The sample table with a struct for a fourth state. *)
Definition sample_slots_or : list (@climate_info Exact.platform) :=
  Eval vm_compute in
    sample_slots ++
    match @new_climate_info Exact.platform "OR" with
    | Some a => [a]
    | None => []
    end.

(** The array after the first sample file. *)
Definition sample_first : list (option (@climate_info Exact.platform)) :=
  Eval vm_compute in
    match @analyze_file Exact.platform
            (Sample.ca1 +:+ Sample.ca2 +:+ Sample.tn1) empty_states NUM_STATES with
    | Some states => states
    | None => []
    end.

(** Its struct of CA. *)
Definition sample_first_ca : @climate_info Exact.platform :=
  Eval vm_compute in
    match sample_first with
    | Some a :: _ => a
    | _ => @mk_climate_info Exact.platform EmptyString 0 0%Q 0%Q 0%Q None 0%Q None 0 0 0%Q
    end.

(** A later file with a record of a new state and a record of CA, and the
    array after it. *)
Definition sample_later_file : string := Sample.wa1 +:+ Sample.ca1.

Definition sample_later : list (option (@climate_info Exact.platform)) :=
  Eval vm_compute in
    match @analyze_file Exact.platform sample_later_file sample_first NUM_STATES with
    | Some states => states
    | None => []
    end.

(** The records of the three flagged lines. *)
Definition sample_flags_records : list (@record Exact.platform) :=
  Eval vm_compute in
    omap (@line_record Exact.platform) (CString.fgets line_sz sample_flags_file).

(** The first sample line without its newline, and the array after the
    first sample line and a line of TN. *)
Definition sample_ca1_text : string :=
  String.concat Sample.TAB
    ["CA"; "1428300000000"; "9prcjqk3yc80"; "93.0"; "0.0"; "100.0"; "0.0";
     "95644.0"; "277.58716"].

Definition sample_joined : list (option (@climate_info Exact.platform)) :=
  Eval vm_compute in
    match @analyze_file Exact.platform Sample.tn1 sample_step.1 NUM_STATES with
    | Some states => states
    | None => []
    end.

(** The first sample line with a tenth field, and the same with another
    geolocation, another pressure and another tenth field. *)
Definition sample_ca1_tenth : string :=
  Sample.line ["CA"; "1428300000000"; "9prcjqk3yc80"; "93.0"; "0.0"; "100.0"; "0.0";
               "95644.0"; "277.58716"; "GFS"].

Definition sample_ca1_other : string :=
  Sample.line ["CA"; "1428300000000"; "9q5ctr18vvz0"; "93.0"; "0.0"; "100.0"; "0.0";
               "101325.0"; "277.58716"; "NOAA"].

(** The first sample line without its humidity. *)
Definition sample_ca1_gap : string :=
  Sample.line ["CA"; "1428300000000"; "9prcjqk3yc80"; EmptyString; "0.0"; "100.0"; "0.0";
               "95644.0"; "277.58716"].

(** A record whose temperature field is -9999, and the loop state after
    it. *)
Definition sample_cold : string := Sample.obs "AK" "1428300000000" "0.0" "-9999.0".

Definition sample_cold_record : @record Exact.platform :=
  Eval vm_compute in
    match @line_record Exact.platform sample_cold with
    | Some r => r
    | None => @mk_record Exact.platform EmptyString 0 0%Q 0%Q 0%Q 0%Q 0%Q
    end.

Definition sample_cold_step : list (option (@climate_info Exact.platform)) * option nat :=
  Eval vm_compute in
    match @analyze_line Exact.platform (empty_states, None) sample_cold with
    | Some st => st
    | None => ([], None)
    end.

(** The structs of TN and WA of the sample report. *)
Definition sample_tail : list (@climate_info Exact.platform) :=
  Eval vm_compute in drop 1 sample_slots.

(** The fresh struct of CA, and that struct with the three flagged records
    folded into it. *)
Definition sample_fresh : @climate_info Exact.platform :=
  Eval vm_compute in
    match @new_climate_info Exact.platform "CA" with
    | Some a => a
    | None => @mk_climate_info Exact.platform EmptyString 0 0%Q 0%Q 0%Q None 0%Q None 0 0 0%Q
    end.

Definition sample_flags_ca : @climate_info Exact.platform :=
  Eval vm_compute in
    match @add_records Exact.platform sample_fresh sample_flags_records with
    | Some a => a
    | None => sample_fresh
    end.

(** The record of the sample line of WA. *)
Definition sample_wa_record : @record Exact.platform :=
  Eval vm_compute in
    match @line_record Exact.platform Sample.wa1 with
    | Some r => r
    | None => @mk_record Exact.platform EmptyString 0 0%Q 0%Q 0%Q 0%Q 0%Q
    end.

(** ** The array and its slots *)

Section Store.
Context {P : Platform}.
Implicit Types (states : table) (a : climate_info).

Lemma deref_Some states p a :
  deref states p = Some a ↔ states !! p = Some (Some a).
Proof.
  unfold deref. destruct (states !! p) as [[b|]|]; simpl; split; congruence.
Qed.

Lemma deref_lt states p a : deref states p = Some a → (p < length states)%nat.
Proof. rewrite deref_Some. apply lookup_lt_Some. Qed.

Lemma deref_insert_eq states p x :
  (p < length states)%nat → deref (<[p := Some x]> states) p = Some x.
Proof. intros Hp. apply deref_Some. by apply list_lookup_insert_eq. Qed.

Lemma deref_insert_ne states p q x :
  p ≠ q → deref (<[p := Some x]> states) q = deref states q.
Proof. intros Hne. unfold deref. by rewrite list_lookup_insert_ne. Qed.

Lemma store_Some states p f states' :
  store states p f = Some states' ↔
  ∃ a a', deref states p = Some a ∧ f a = Some a' ∧
          states' = <[p := Some a']> states.
Proof.
  unfold store. split.
  - destruct (deref states p) as [a|]; simpl; [|done].
    destruct (f a) as [a'|] eqn:Hf; simpl; [|done].
    intros [= <-]. by exists a, a'.
  - intros (a & a' & -> & Hf & ->). simpl. by rewrite Hf.
Qed.

(** Two updates of one struct in a row are one update. *)
Lemma store_store states p f g :
  store states p f ≫= (λ states', store states' p g)
  = store states p (λ a, f a ≫= g).
Proof.
  unfold store. destruct (deref states p) as [a|] eqn:Ha; simpl; [|done].
  destruct (f a) as [a'|]; simpl; [|done].
  rewrite deref_insert_eq by eauto using deref_lt. simpl.
  destruct (g a'); simpl; [|done]. by rewrite list_insert_insert_eq.
Qed.

Lemma store_new_store_new states ns f g :
  store_new states ns f ≫= (λ states', store_new states' ns g)
  = store_new states ns (λ a, f a ≫= g).
Proof. destruct ns as [p|]; simpl; [apply store_store | done]. Qed.

Lemma store_length states p f states' :
  store states p f = Some states' → length states' = length states.
Proof.
  rewrite store_Some. intros (a & a' & _ & _ & ->). apply length_insert.
Qed.

End Store.

(** ** The loop body in terms of records *)

Section LoopBody.
Context {P : Platform}.
Implicit Types (states : table) (a : climate_info).

Ltac bind_step :=
  match goal with
  | p : (_ * _ * _)%type |- _ => destruct p as [[? ?] ?]; simpl
  | |- context [mbind _ ?m] =>
      lazymatch m with
      | Some _ => fail
      | None => fail
      | _ => destruct m eqn:?; simpl
      end
  end.

Lemma bind_fail {A B} (m : option A) : m ≫= (λ _, @None B) = None.
Proof. by destruct m. Qed.

(** One iteration: read the record, find or create the slot of its state
    code, count the record in the struct of that slot, and fold it into
    the struct that [new_state] points to. *)
Lemma analyze_line_eq states ns line :
  analyze_line (states, ns) line =
  r ← line_record line;
  '(states1, ns1, i) ← get_or_create states ns (state_code r);
  states2 ← store states1 (Z.to_nat i) (λ a, Some (count_record a));
  states3 ← store_new states2 ns1 (fold_record r);
  Some (states3, ns1).
Proof.
  unfold analyze_line, line_record, get_or_create.
  set (tokens := CString.strtok line CString.TAB).
  destruct (tokens !! 0%nat) as [c|]; simpl; [|done].
  destruct (tokens !! 1%nat) as [ts|]; simpl; [|by repeat bind_step].
  destruct (tokens !! 3%nat) as [h|]; simpl; [|by repeat bind_step].
  destruct (tokens !! 4%nat) as [s|]; simpl; [|by repeat bind_step].
  destruct (tokens !! 5%nat) as [cc|]; simpl; [|by repeat bind_step].
  destruct (tokens !! 6%nat) as [l|]; simpl; [|by repeat bind_step].
  destruct (tokens !! 8%nat) as [t|]; simpl; [|by repeat bind_step].
  destruct (findStateIndex states c) as [idx|]; simpl; [|done].
  match goal with |- ?m ≫= _ = _ => destruct m as [[[states1 ns1] i]|] end;
    simpl; [|done].
  fold count_record.
  destruct (store states1 (Z.to_nat i) _) as [states2|]; simpl; [|done].
  destruct ns1 as [p|]; simpl; [|done].
  unfold store.
  destruct (deref states2 p) as [a|] eqn:Ha; simpl; [|done].
  pose proof (deref_lt _ _ _ Ha) as Hp.
  unfold fold_record.
  repeat (rewrite deref_insert_eq by (by rewrite ?length_insert); simpl).
  destruct (ulong_add_ld (num_snowcover a) _) as [n|]; simpl; [|done].
  repeat (rewrite deref_insert_eq by (by rewrite ?length_insert); simpl).
  destruct (ulong_add_ld (num_lightning a) _) as [n'|]; simpl; [|done].
  repeat (rewrite deref_insert_eq by (by rewrite ?length_insert); simpl).
  by rewrite !list_insert_insert_eq.
Qed.

(** *** [findStateIndex] *)

Lemma findStateIndex_from_spec states c i r :
  0 ≤ i →
  findStateIndex_from i states c = Some r →
  ∃ j, scanned c j states ∧
    ((∃ a, states !! j = Some (Some a) ∧ code a = c ∧ r = i + Z.of_nat j)
     ∨ (states !! j = Some None ∧
        r = if i + Z.of_nat j =? 0 then -50 else - (i + Z.of_nat j))).
Proof.
  revert i. induction states as [|[s|] rest IH]; intros i Hi; simpl; [done| |].
  - destruct (String.eqb (code s) c) eqn:Hc.
    + intros [= <-]. exists 0%nat. split; [intros j' Hj'; lia|].
      left. exists s. apply String.eqb_eq in Hc. split_and!; [done..|lia].
    + intros Hr. apply IH in Hr as (j & Hscan & Hj); [|lia].
      exists (S j). split.
      * intros [|j'] Hj'; simpl.
        -- exists s. split; [done|]. by apply String.eqb_neq.
        -- apply Hscan. lia.
      * simpl. replace (i + Z.of_nat (S j)) with (i + 1 + Z.of_nat j) by lia.
        done.
  - intros [= <-]. exists 0%nat. split; [intros j' Hj'; lia|].
    right. split; [done|]. by rewrite Z.add_0_r.
Qed.

(** A non-negative result is the slot of a struct with the code. *)
Lemma findStateIndex_found states c r :
  findStateIndex states c = Some r → 0 ≤ r →
  ∃ a, states !! Z.to_nat r = Some (Some a) ∧ code a = c.
Proof.
  intros Hr Hpos. apply findStateIndex_from_spec in Hr as (j & _ & Hj); [|done].
  destruct Hj as [(a & Ha & Hc & ->)|[_ ->]].
  - exists a. by rewrite Z.add_0_l, Nat2Z.id.
  - rewrite Z.add_0_l in Hpos. destruct (Z.eqb_spec (Z.of_nat j) 0); lia.
Qed.

(** A negative result encodes the first NULL slot, and the slot is
    recovered from it when the array has at most 50 slots. *)
Lemma findStateIndex_absent states c r :
  findStateIndex states c = Some r → r < 0 →
  (length states ≤ 50)%nat →
  let k := Z.to_nat (if r =? -50 then 0 else r * -1) in
  states !! k = Some None ∧ scanned c k states.
Proof.
  intros Hr Hneg Hlen. apply findStateIndex_from_spec in Hr as (j & Hscan & Hj); [|done].
  destruct Hj as [(a & Ha & Hc & ->)|[Hj ->]]; [lia|].
  apply lookup_lt_Some in Hj as Hlt. rewrite Z.add_0_l. simpl.
  destruct (Z.eqb_spec (Z.of_nat j) 0) as [E|E].
  - assert (j = 0%nat) as -> by lia. by simpl.
  - destruct (Z.eqb_spec (- Z.of_nat j) (-50)) as [E'|E']; [lia|].
    replace (Z.to_nat (- Z.of_nat j * -1)) with j by lia. done.
Qed.

(** *** Find or create *)

Lemma get_or_create_inv states ns c states1 ns1 i :
  get_or_create states ns c = Some (states1, ns1, i) →
  0 ≤ i ∧
  ((states1 = states ∧ ns1 = ns ∧
    ∃ a, states !! Z.to_nat i = Some (Some a) ∧ code a = c)
   ∨ (∃ fresh r, findStateIndex states c = Some r ∧ r < 0 ∧
        i = (if r =? -50 then 0 else r * -1) ∧
        new_climate_info c = Some fresh ∧
        states1 = <[Z.to_nat i := Some fresh]> states ∧
        ns1 = Some (Z.to_nat i))).
Proof.
  unfold get_or_create.
  destruct (findStateIndex states c) as [r|] eqn:Hr; simpl; [|done].
  destruct (r <? 0) eqn:Hneg.
  - apply Z.ltb_lt in Hneg.
    destruct (new_climate_info c) as [fresh|]; simpl; [|done].
    intros [= <- <- <-]. split; [destruct (r =? -50); lia|].
    right. by exists fresh, r.
  - apply Z.ltb_ge in Hneg. intros [= <- <- <-]. split; [done|].
    left. split_and!; [done..|]. by apply findStateIndex_found.
Qed.

End LoopBody.

(** ** The fold of one record *)

Section Fold.
Context {P : Platform}.
Implicit Types (a : climate_info) (r : record).

Lemma fold_record_Some r a a' :
  fold_record r a = Some a' ↔
  ∃ n n', ulong_add_ld (num_snowcover a) (snow_val r) = Some n ∧
          ulong_add_ld (num_lightning a) (lightning_val r) = Some n' ∧
          a' = update_min (temperature_val r) (timestamp_long r)
                 (update_max (temperature_val r) (timestamp_long r)
                    (summed r n n' a)).
Proof.
  unfold fold_record. simpl. split.
  - destruct (ulong_add_ld (num_snowcover a) _) as [n|]; simpl; [|done].
    destruct (ulong_add_ld (num_lightning a) _) as [n'|]; simpl; [|done].
    intros [= <-]. by exists n, n'.
  - intros (n & n' & -> & -> & ->). done.
Qed.

Lemma update_max_fields t ts a :
  let a' := update_max t ts a in
  code a' = code a ∧ num_records a' = num_records a ∧
  sum_temperature a' = sum_temperature a ∧ sum_humidity a' = sum_humidity a ∧
  sum_cloudcover a' = sum_cloudcover a ∧
  num_snowcover a' = num_snowcover a ∧ num_lightning a' = num_lightning a ∧
  min_temperature a' = min_temperature a ∧ min_temp_date a' = min_temp_date a.
Proof. unfold update_max. by destruct (ld_lt _ _). Qed.

Lemma update_min_fields t ts a :
  let a' := update_min t ts a in
  code a' = code a ∧ num_records a' = num_records a ∧
  sum_temperature a' = sum_temperature a ∧ sum_humidity a' = sum_humidity a ∧
  sum_cloudcover a' = sum_cloudcover a ∧
  num_snowcover a' = num_snowcover a ∧ num_lightning a' = num_lightning a ∧
  max_temperature a' = max_temperature a ∧ max_temp_date a' = max_temp_date a.
Proof. unfold update_min. by destruct (ld_lt _ _). Qed.

(** The fold leaves the code and the record count alone, adds to the
    sums and sets the counters. *)
Lemma fold_record_fields r a a' :
  fold_record r a = Some a' →
  code a' = code a ∧ num_records a' = num_records a ∧
  sum_temperature a' = ld_add (sum_temperature a) (temperature_val r) ∧
  sum_humidity a' = ld_add (sum_humidity a) (humidity_val r) ∧
  sum_cloudcover a' = ld_add (sum_cloudcover a) (cloudcover_val r) ∧
  ulong_add_ld (num_snowcover a) (snow_val r) = Some (num_snowcover a') ∧
  ulong_add_ld (num_lightning a) (lightning_val r) = Some (num_lightning a').
Proof.
  rewrite fold_record_Some. intros (n & n' & Hn & Hn' & ->).
  pose proof (update_min_fields (temperature_val r) (timestamp_long r)
    (update_max (temperature_val r) (timestamp_long r) (summed r n n' a))) as Hmin.
  pose proof (update_max_fields (temperature_val r) (timestamp_long r)
    (summed r n n' a)) as Hmax.
  simpl in Hmin, Hmax.
  destruct Hmin as (-> & -> & -> & -> & -> & -> & -> & _).
  destruct Hmax as (-> & -> & -> & -> & -> & -> & -> & _).
  by rewrite Hn, Hn'.
Qed.

(** Each extremum keeps its value and date or takes those of the record. *)
Lemma fold_record_extrema r a a' :
  fold_record r a = Some a' →
  ((max_temperature a' = max_temperature a ∧ max_temp_date a' = max_temp_date a
    ∧ ld_lt (ldouble_of_double (max_temperature a)) (temperature_val r) = false)
   ∨ (max_temperature a' = double_of_ldouble (temperature_val r)
      ∧ max_temp_date a' = Some (timestamp_long r)
      ∧ ld_lt (ldouble_of_double (max_temperature a)) (temperature_val r) = true))
  ∧
  ((min_temperature a' = min_temperature a ∧ min_temp_date a' = min_temp_date a
    ∧ ld_lt (temperature_val r) (ldouble_of_double (min_temperature a)) = false)
   ∨ (min_temperature a' = double_of_ldouble (temperature_val r)
      ∧ min_temp_date a' = Some (timestamp_long r)
      ∧ ld_lt (temperature_val r) (ldouble_of_double (min_temperature a)) = true)).
Proof.
  rewrite fold_record_Some. intros (n & n' & _ & _ & ->).
  unfold update_min, update_max. simpl.
  destruct (ld_lt (ldouble_of_double (max_temperature a)) _) eqn:Hmax; simpl;
    destruct (ld_lt _ (ldouble_of_double (min_temperature a))) eqn:Hmin; simpl;
    split; auto.
Qed.

End Fold.

(** ** One iteration, slot by slot *)

Section Iteration.
Context {P : Platform}.
Implicit Types (states : table) (a : climate_info).

(** A successful iteration, step by step: [a0] is the struct of the slot
    of the state code, [a] the struct that [new_state] points to once the
    record is counted, [a'] that struct after the fold. *)
Lemma analyze_line_Some states ns line states' ns' :
  analyze_line (states, ns) line = Some (states', ns') →
  ∃ r states1 i p a0 a a',
    line_record line = Some r ∧
    get_or_create states ns (state_code r) = Some (states1, ns', i) ∧
    deref states1 (Z.to_nat i) = Some a0 ∧
    ns' = Some p ∧
    deref (<[Z.to_nat i := Some (count_record a0)]> states1) p = Some a ∧
    fold_record r a = Some a' ∧
    states' = <[p := Some a']> (<[Z.to_nat i := Some (count_record a0)]> states1).
Proof.
  rewrite analyze_line_eq.
  destruct (line_record line) as [r|]; simpl; [|done].
  destruct (get_or_create states ns (state_code r)) as [[[states1 ns1] i]|] eqn:Hg;
    simpl; [|done].
  destruct (store states1 (Z.to_nat i) _) as [states2|] eqn:Hs; simpl; [|done].
  apply store_Some in Hs as (a0 & ? & Ha0 & [= <-] & ->).
  destruct ns1 as [p|]; simpl; [|done].
  destruct (store _ p (fold_record r)) as [states3|] eqn:Hs; simpl; [|done].
  apply store_Some in Hs as (a & a' & Ha & Hf & ->).
  intros [= <- <-]. exists r, states1, i, p, a0, a, a'.
  split_and!; first [reflexivity | assumption].
Qed.

Lemma analyze_line_length states ns line states' ns' :
  analyze_line (states, ns) line = Some (states', ns') →
  length states' = length states.
Proof.
  intros H. apply analyze_line_Some in H
    as (r & states1 & i & p & a0 & a & a' & _ & Hg & _ & _ & _ & _ & ->).
  rewrite !length_insert.
  apply get_or_create_inv in Hg as [_ [(-> & _)|(fresh & idx & _ & _ & _ & _ & -> & _)]];
    [done|apply length_insert].
Qed.

Lemma analyze_lines_length lines states ns states' ns' :
  analyze_lines lines (states, ns) = Some (states', ns') →
  length states' = length states.
Proof.
  revert states ns. induction lines as [|line lines IH]; intros states ns; simpl.
  - by intros [= <- <-].
  - destruct (analyze_line (states, ns) line) as [[states1 ns1]|] eqn:H1; simpl; [|done].
    intros H. apply IH in H. apply analyze_line_length in H1. congruence.
Qed.

End Iteration.

(** ** The extrema stay ordered *)

Section Ordered.
Context {P : Platform} {L : OrderLaws P}.
Implicit Types (states : table) (a : climate_info).

Lemma update_max_ordered t ts a :
  max_ge_min a = true → max_ge_min (update_max t ts a) = true.
Proof.
  unfold max_ge_min, update_max. intros Hle.
  destruct (ld_lt _ t) eqn:Hlt; simpl; [|done].
  rewrite <- (double_round_trip (min_temperature a)).
  apply double_of_ldouble_mono.
  eapply ld_le_trans; [exact Hle|]. by apply ld_lt_le.
Qed.

Lemma update_min_ordered t ts a :
  max_ge_min a = true → max_ge_min (update_min t ts a) = true.
Proof.
  unfold max_ge_min, update_min. intros Hle.
  destruct (ld_lt t _) eqn:Hlt; simpl; [|done].
  rewrite <- (double_round_trip (max_temperature a)).
  apply double_of_ldouble_mono.
  eapply ld_le_trans; [|exact Hle]. by apply ld_lt_le.
Qed.

Lemma fold_record_ordered r a a' :
  fold_record r a = Some a' → max_ge_min a = true → max_ge_min a' = true.
Proof.
  rewrite fold_record_Some. intros (n & n' & _ & _ & ->) Hle.
  by apply update_min_ordered, update_max_ordered.
Qed.

(** The first record folded into a new struct sets both extrema. *)
Lemma fold_record_first r a a' :
  fold_record r a = Some a' →
  max_temperature a = double_of_int (-1000) →
  min_temperature a = double_of_int 1000 →
  between_sentinels (temperature_val r) = true →
  max_temperature a' = double_of_ldouble (temperature_val r) ∧
  max_temp_date a' = Some (timestamp_long r) ∧
  min_temperature a' = double_of_ldouble (temperature_val r) ∧
  min_temp_date a' = Some (timestamp_long r).
Proof.
  intros Hf Hmax Hmin [Hlo Hhi]%andb_prop.
  apply fold_record_extrema in Hf as [Hf1 Hf2].
  rewrite Hmax in Hf1. rewrite Hmin in Hf2.
  destruct Hf1 as [(_ & _ & Hc)|(-> & -> & _)]; [congruence|].
  destruct Hf2 as [(_ & _ & Hc)|(-> & -> & _)]; [congruence|]. done.
Qed.

Lemma fold_record_first_ordered r a a' :
  fold_record r a = Some a' →
  max_temperature a = double_of_int (-1000) →
  min_temperature a = double_of_int 1000 →
  between_sentinels (temperature_val r) = true →
  max_ge_min a' = true.
Proof.
  intros Hf Hmax Hmin Hb.
  destruct (fold_record_first _ _ _ Hf Hmax Hmin Hb) as (Hmax' & _ & Hmin' & _).
  unfold max_ge_min. rewrite Hmax', Hmin'.
  apply andb_prop in Hb as [Hlo _].
  eapply ld_le_refl_r, double_of_ldouble_mono, ld_lt_le, Hlo.
Qed.

Lemma ordered_insert states q a :
  ordered states → max_ge_min a = true → ordered (<[q := Some a]> states).
Proof.
  intros Hs Ha q' b Hb. destruct (decide (q = q')) as [<-|Hne].
  - apply list_lookup_insert_Some in Hb as [(_ & [= <-] & _)|[? _]]; done.
  - rewrite list_lookup_insert_ne in Hb by done. eauto.
Qed.

Lemma ordered_empty : ordered empty_states.
Proof.
  intros q a Hq. unfold empty_states in Hq.
  apply lookup_replicate in Hq as [? _]. done.
Qed.

Lemma analyze_line_ordered states ns line states' ns' :
  analyze_line (states, ns) line = Some (states', ns') →
  line_in_range line = true →
  ordered states → ordered states'.
Proof.
  intros H Hr Hs. apply analyze_line_Some in H
    as (r & states1 & i & p & a0 & a & a' & Hl & Hg & Ha0 & -> & Ha & Hf & ->).
  unfold line_in_range in Hr. rewrite Hl in Hr.
  apply get_or_create_inv in Hg
    as [_ [(-> & _ & _)|(fresh & idx & _ & _ & _ & Hfresh & -> & [= ->])]].
  - assert (ordered (<[Z.to_nat i := Some (count_record a0)]> states)) as Hs2.
    { apply ordered_insert; [done|]. apply deref_Some in Ha0. by apply Hs in Ha0. }
    apply ordered_insert; [done|].
    apply deref_Some in Ha. eapply fold_record_ordered; eauto.
  - assert (Z.to_nat i < length states)%nat as Hlt.
    { apply deref_lt in Ha0. by rewrite length_insert in Ha0. }
    rewrite deref_insert_eq in Ha0 by done. injection Ha0 as <-.
    rewrite deref_insert_eq in Ha by (by rewrite length_insert).
    injection Ha as <-.
    rewrite !list_insert_insert_eq. apply ordered_insert; [done|].
    unfold new_climate_info in Hfresh.
    destruct (String.length _ <=? 2)%nat; [|done]. injection Hfresh as <-.
    eapply fold_record_first_ordered; eauto.
Qed.

Lemma analyze_lines_ordered lines states ns states' ns' :
  analyze_lines lines (states, ns) = Some (states', ns') →
  forallb line_in_range lines = true →
  ordered states → ordered states'.
Proof.
  revert states ns. induction lines as [|line lines IH]; intros states ns; simpl.
  - by intros [= <- <-].
  - destruct (analyze_line (states, ns) line) as [[states1 ns1]|] eqn:H1; simpl; [|done].
    intros H [Hl Hls]%andb_prop Hs.
    eapply IH; eauto using analyze_line_ordered.
Qed.

Lemma main_loop_ordered files states states' :
  main_loop files states = Some states' →
  files_in_range files = true →
  ordered states → ordered states'.
Proof.
  revert states. induction files as [|[file|] files IH]; intros states; simpl.
  - by intros [= <-].
  - unfold analyze_file.
    destruct (analyze_lines _ (states, None)) as [[states1 ns1]|] eqn:H1; simpl; [|done].
    intros H [Hl Hls]%andb_prop Hs.
    eapply IH; eauto using analyze_lines_ordered.
  - intros H Hr Hs. eapply IH; eauto.
Qed.

End Ordered.

(** ** Exact arithmetic obeys the laws *)

Module ExactLaws.

Lemma order_laws : OrderLaws Exact.platform.
Proof.
  split; simpl.
  - intros x y Hlt. apply Qle_bool_iff, Qlt_le_weak, Qnot_le_lt.
    intros Hle%Qle_bool_iff. by rewrite Hle in Hlt.
  - intros x y z Hxy%Qle_bool_iff Hyz%Qle_bool_iff.
    apply Qle_bool_iff. by eapply Qle_trans.
  - intros x y _. apply Qle_bool_iff, Qle_refl.
  - done.
  - done.
Qed.

Lemma to_ulong_inject (n : Z) (q : Q) :
  (q == inject_Z n)%Q → 0 ≤ n < ULONG_MODULUS → Exact.to_ulong q = Some n.
Proof.
  intros Hq Hn. unfold Exact.to_ulong, Exact.trunc.
  assert (Qle_bool 0 q = true) as ->.
  { apply Qle_bool_iff. rewrite Hq. change 0%Q with (inject_Z 0).
    rewrite <- Zle_Qle. lia. }
  assert (Qfloor q = n) as -> by (rewrite Hq; apply Qfloor_Z).
  destruct (Z.leb_spec 0 n); [|lia]. destruct (Z.ltb_spec n ULONG_MODULUS); [|lia].
  done.
Qed.

Lemma count_laws : CountLaws Exact.platform.
Proof.
  split. intros n k Hn Hk Hlt. simpl.
  apply to_ulong_inject.
  - rewrite Qred_correct, <- inject_Z_plus. reflexivity.
  - unfold ULONG_MODULUS. split; [lia|].
    eapply Z.lt_trans; [exact Hlt|]. done.
Qed.

Lemma exact_store : ExactStore Exact.platform.
Proof.
  split; simpl; [done|].
  intros t. apply negb_false_iff, Qle_bool_iff, Qle_refl.
Qed.

End ExactLaws.

(** ** The binary64 numbers of the conversion

    The [double]s nearest to 373.15, 1.8 and 459.67, mantissa and exponent:
    0x1.7526666666666p+8, 0x1.ccccccccccccdp+0 and 0x1.cbab851eb851fp+8. *)

Lemma binary64_literals :
  @atof IEEE.x87 "373.15" = S754_finite false 6564524222473830 (-44) ∧
  @lit_1_8 IEEE.x87 = S754_finite false 8106479329266893 (-52) ∧
  @lit_459_67 IEEE.x87 = S754_finite false 8086600159036703 (-44) ∧
  6564524222473830 = 0x17526666666666 ∧
  8106479329266893 = 0x1ccccccccccccd ∧
  8086600159036703 = 0x1cbab851eb851f.
Proof. split_and!; vm_compute; reflexivity. Qed.

(** ** Records and their tokens *)

Section Tokens.
Context {P : Platform}.

Lemma line_record_Some line r :
  line_record line = Some r ↔
  ∃ c ts h s cc l t,
    let tokens := CString.strtok line CString.TAB in
    tokens !! 0%nat = Some c ∧ tokens !! 1%nat = Some ts ∧
    tokens !! 3%nat = Some h ∧ tokens !! 4%nat = Some s ∧
    tokens !! 5%nat = Some cc ∧ tokens !! 6%nat = Some l ∧
    tokens !! 8%nat = Some t ∧
    r = mk_record c (Z.quot (atol ts) 1000)
          (ldouble_of_double (atof h)) (ldouble_of_double (atof s))
          (ldouble_of_double (atof cc)) (ldouble_of_double (atof l))
          (fahrenheit (ldouble_of_double (atof t))).
Proof.
  unfold line_record. split.
  - destruct (_ !! 0%nat) as [c|]; simpl; [|done].
    destruct (_ !! 1%nat) as [ts|]; simpl; [|done].
    destruct (_ !! 3%nat) as [h|]; simpl; [|done].
    destruct (_ !! 4%nat) as [s|]; simpl; [|done].
    destruct (_ !! 5%nat) as [cc|]; simpl; [|done].
    destruct (_ !! 6%nat) as [l|]; simpl; [|done].
    destruct (_ !! 8%nat) as [t|]; simpl; [|done].
    intros [= <-]. by exists c, ts, h, s, cc, l, t.
  - intros (c & ts & h & s & cc & l & t & -> & -> & -> & -> & -> & -> & -> & ->).
    done.
Qed.

(** A line of fewer than nine tokens has no record. *)
Lemma line_record_short line :
  (length (CString.strtok line CString.TAB) < 9)%nat → line_record line = None.
Proof.
  intros Hlen. destruct (line_record line) as [r|] eqn:Hr; [|done].
  apply line_record_Some in Hr as (c & ts & h & s & cc & l & t & Hr).
  simpl in Hr. destruct Hr as (_ & _ & _ & _ & _ & _ & Ht & _).
  apply lookup_lt_Some in Ht. lia.
Qed.

Lemma fields_nonempty d s : (1 ≤ length (CString.fields d s))%nat.
Proof.
  induction s as [|c s IH]; simpl; [lia|].
  destruct (Ascii.eqb c d); simpl; [lia|].
  destruct (CString.fields d s); simpl in *; lia.
Qed.

Lemma fields_cstr d s :
  (length (CString.fields d (CString.cstr s)) ≤ length (CString.fields d s))%nat.
Proof.
  induction s as [|c s IH]; simpl; [lia|].
  destruct (Ascii.eqb c CString.NUL); simpl.
  - destruct (Ascii.eqb c d); simpl; [lia|].
    pose proof (fields_nonempty d s). destruct (CString.fields d s); simpl in *; lia.
  - destruct (Ascii.eqb c d); simpl; [lia|].
    pose proof (fields_nonempty d s). pose proof (fields_nonempty d (CString.cstr s)).
    destruct (CString.fields d s), (CString.fields d (CString.cstr s));
      simpl in *; lia.
Qed.

(** [strtok] yields at most as many tokens as the line has fields. *)
Lemma strtok_fields line d :
  (length (CString.strtok line d) ≤ length (CString.fields d line))%nat.
Proof.
  unfold CString.strtok.
  etrans; [apply List.filter_length_le | apply fields_cstr].
Qed.

End Tokens.

(** * Properties of the aggregation *)

(** ** Records of a state that is already in the array *)

Section Misplaced.
Context {P : Platform}.

(** When the state code of a line is found in slot [i] while [new_state]
    points to another slot [p], only the record count of slot [i]
    changes, and the record is folded into the struct of slot [p]. *)
Lemma found_record_folded_elsewhere states (p : nat) line r (i : Z) ai ap states' ns' :
  line_record line = Some r →
  findStateIndex states (state_code r) = Some i → 0 ≤ i →
  p ≠ Z.to_nat i →
  states !! Z.to_nat i = Some (Some ai) →
  states !! p = Some (Some ap) →
  analyze_line (states, Some p) line = Some (states', ns') →
  ns' = Some p ∧
  states' !! Z.to_nat i = Some (Some (count_record ai)) ∧
  ∃ ap', fold_record r ap = Some ap' ∧ states' !! p = Some (Some ap').
Proof.
  intros Hr Hi Hpos Hne Hai Hap H.
  rewrite analyze_line_eq, Hr in H. simpl in H.
  unfold get_or_create in H. rewrite Hi in H. simpl in H.
  destruct (Z.ltb_spec i 0); [lia|]. simpl in H.
  unfold store in H. apply deref_Some in Hai as Hai'. rewrite Hai' in H. simpl in H.
  rewrite deref_insert_ne in H by done.
  apply deref_Some in Hap as Hap'. rewrite Hap' in H. simpl in H.
  destruct (fold_record r ap) as [ap'|]; simpl in H; [|done].
  injection H as <- <-. split; [done|]. split.
  - rewrite list_lookup_insert_ne by done.
    apply list_lookup_insert_eq. by eapply lookup_lt_Some.
  - exists ap'. split; [done|]. apply list_lookup_insert_eq.
    rewrite length_insert. by eapply lookup_lt_Some.
Qed.

End Misplaced.

(** C1. The specification has every record folded into the struct of its
    own state code. In the code only [num_records] is updated through
    [states[state_index]]; the sums, counters and extrema are updated
    through [new_state], the struct created last in the call. Here the
    file is a CA line, a TN line and a second CA line: the second CA line
    is counted in the CA struct (two records) and folded into the TN
    struct, whose humidity sum is 61 + 4 and whose minimum carries the
    date of the CA line, while the CA sums are those of its first line. *)
Theorem record_folded_into_last_created :
  @analyze_file Exact.platform (Sample.ca1 +:+ Sample.tn1 +:+ Sample.ca2)
    empty_states NUM_STATES
  = Some (<[0%nat := Some (@mk_climate_info Exact.platform "CA" 2
                             (4998361 # 125000)%Q 93%Q
                             (4998361 # 125000)%Q (Some 1428300000)
                             (4998361 # 125000)%Q (Some 1428300000)
                             0 0 100%Q)]>
         (<[1%nat := Some (@mk_climate_info Exact.platform "TN" 1
                             (1025299 # 10000)%Q 65%Q
                             (26732617 # 500000)%Q (Some 1428559200)
                             (24532333 # 500000)%Q (Some 1430308800)
                             1 1 100%Q)]>
          empty_states)).
Proof. reflexivity. Qed.

(** ** Lines with missing fields *)

(** C2, as the specification states it, fails: a line of five fields
    followed by a complete line does not give the table of the complete
    line alone; it gives no table at all. *)
Lemma short_line_not_skipped :
  let short := Sample.line ["CA"; "1428300000000"; "9prcjqk3yc80"; "93.0"; "0.0"] in
  (length (CString.fields CString.TAB short) < 9)%nat ∧
  @analyze_file Exact.platform (short +:+ Sample.ca1) empty_states NUM_STATES = None ∧
  is_Some (@analyze_file Exact.platform Sample.ca1 empty_states NUM_STATES).
Proof.
  split; [vm_compute; lia|]. split; [reflexivity|].
  eexists. reflexivity.
Qed.

(** C2, amended. The loop has no check of the number of fields and takes
    every line for a record of nine fields: a line of fewer than nine
    tab-separated fields is not skipped, and a stream that contains one
    yields no table ([strtok] returns NULL for the missing field, which the
    body passes to [atol] or [atof]; no later line is processed). *)
Theorem short_line_stops_run {P : Platform} before line after st :
  (length (CString.fields CString.TAB line) < 9)%nat →
  analyze_lines (before ++ line :: after) st = None.
Proof.
  intros Hlen. revert st. induction before as [|l before IH]; intros [states ns]; simpl.
  - rewrite analyze_line_eq, line_record_short; [done|].
    pose proof (strtok_fields line CString.TAB). lia.
  - destruct (analyze_line (states, ns) l) as [st'|]; simpl; [apply IH|done].
Qed.

Lemma short_line_stops_run_witness :
  let short := Sample.line ["CA"; "1428300000000"; "9prcjqk3yc80"; "93.0"; "0.0"] in
  (length (CString.fields CString.TAB short) < 9)%nat ∧
  @analyze_lines Exact.platform ([Sample.ca1] ++ short :: [Sample.ca2])
    (empty_states, None) = None.
Proof.
  split; [vm_compute; lia|].
  apply (short_line_stops_run (P:=Exact.platform) [Sample.ca1]). vm_compute; lia.
Defined.

(** ** Extrema *)

(** C3. In the table that [main] hands to the report, every struct with
    at least one record has [max_temperature >= min_temperature], when the
    Fahrenheit temperature of every record read lies strictly between the
    initial values -1000 and 1000. *)
Theorem max_temperature_ge_min_temperature {P : Platform} {L : OrderLaws P}
    (files : list (option string)) (states : table) (a : climate_info) :
  files_in_range files = true →
  main files = Report states →
  Some a ∈ states →
  1 ≤ num_records a →
  max_ge_min a = true.
Proof.
  intros Hrange Hmain Ha _. unfold main in Hmain.
  destruct files as [|file files]; [done|].
  destruct (main_loop (file :: files) empty_states) as [states'|] eqn:Hloop; [|done].
  injection Hmain as ->.
  apply list_elem_of_lookup in Ha as [q Hq].
  eapply main_loop_ordered; eauto using ordered_empty.
Qed.

Lemma max_temperature_ge_min_temperature_witness :
  @files_in_range Exact.platform sample_files = true ∧
  @main Exact.platform sample_files = Report sample_report ∧
  Some sample_ca ∈ sample_report ∧
  1 ≤ num_records sample_ca ∧
  max_ge_min sample_ca = true.
Proof.
  assert (@files_in_range Exact.platform sample_files = true) as H1
    by (vm_compute; reflexivity).
  assert (@main Exact.platform sample_files = Report sample_report) as H2
    by reflexivity.
  assert (Some sample_ca ∈ sample_report) as H3 by (apply list_elem_of_here).
  assert (1 ≤ num_records sample_ca) as H4 by (vm_compute; discriminate).
  refine (conj H1 (conj H2 (conj H3 (conj H4 _)))).
  exact (max_temperature_ge_min_temperature (L:=ExactLaws.order_laws)
           sample_files sample_report sample_ca H1 H2 H3 H4).
Defined.

Section FirstRecord.
Context {P : Platform}.


End FirstRecord.


Section Timestamp.
Context {P : Platform}.


End Timestamp.


(** ** Ties *)

Section Rounded.
Context {P : Platform}.

(** Where the conversion to [double] rounds a temperature down, a second
    record of that temperature is above the stored maximum and takes its
    date; where it rounds up, the second record is below the stored
    minimum. *)
Lemma tie_moves_date t ts a :
  (max_temperature a = double_of_ldouble t →
   ld_lt (ldouble_of_double (double_of_ldouble t)) t = true →
   max_temp_date (update_max t ts a) = Some ts) ∧
  (min_temperature a = double_of_ldouble t →
   ld_lt t (ldouble_of_double (double_of_ldouble t)) = true →
   min_temp_date (update_min t ts a) = Some ts).
Proof.
  unfold update_max, update_min. split; intros -> ->; done.
Qed.

End Rounded.

Section Ties.
Context {P : Platform} {E : ExactStore P}.

(** Where the conversion to [double] is exact, a record whose temperature
    equals an extremum moves neither the extremum nor its date. *)
Lemma tie_keeps_extrema t ts a :
  (max_temperature a = double_of_ldouble t → update_max t ts a = a) ∧
  (min_temperature a = double_of_ldouble t → update_min t ts a = a).
Proof.
  unfold update_max, update_min.
  split; intros ->; by rewrite store_exact, ld_lt_irrefl.
Qed.

End Ties.

(** C6. The specification has a record whose temperature equals an
    extremum move neither the extremum nor its date. The comparisons of
    lines 269 and 276 are strict, but they compare the [long double]
    temperature with the [double] field in which an earlier temperature
    was stored rounded. With
    the x87 [long double] of x86-64, two CA lines of temperature 277.58716 K
    have one and the same Fahrenheit temperature; the first sets both dates
    to its own, and the second, being above the rounded maximum, moves the
    date of the maximum to its own. Where [long double] is [double] the date
    stays. *)
Theorem tie_moves_date_of_maximum :
  let first := Sample.obs "CA" "1428300000000" "0.0" "277.58716" in
  let second := Sample.obs "CA" "1430308800000" "0.0" "277.58716" in
  let after (P : Platform) (file : string) :=
    states ← @analyze_file P file empty_states NUM_STATES;
    a ← deref states 0;
    Some (extrema a) in
  @temperature_val IEEE.x87 <$> line_record first
    = @temperature_val IEEE.x87 <$> line_record second ∧
  @temperature_val IEEE.x87 <$> line_record first
    = Some (S754_finite false 11525435769376358680 (-58)) ∧
  after IEEE.x87 first
    = Some (S754_finite false 5627654184265800 (-47), Some 1428300000,
            S754_finite false 5627654184265800 (-47), Some 1428300000) ∧
  after IEEE.x87 (first +:+ second)
    = Some (S754_finite false 5627654184265800 (-47), Some 1430308800,
            S754_finite false 5627654184265800 (-47), Some 1428300000) ∧
  after IEEE.binary64 (first +:+ second)
    = Some (S754_finite false 5627654184265800 (-47), Some 1428300000,
            S754_finite false 5627654184265800 (-47), Some 1428300000).
Proof. split_and!; vm_compute; reflexivity. Qed.

(** ** Files *)

(** C7. The specification has a file cut in two at a line boundary give
    the table of the whole file. [new_state] is a local variable of
    [analyze_file] without initializer, assigned only when a struct is
    created: on
    the second file the first line is of a state already in the array, and
    the body reads through the uninitialized pointer. Here the file has
    two CA lines. *)
Theorem split_file_reads_uninitialized_pointer :
  @main Exact.platform [Some (Sample.ca1 +:+ Sample.ca2)]
    = Report (<[0%nat := Some (@mk_climate_info Exact.platform "CA" 2
                                 (44525777 # 500000)%Q 97%Q
                                 (24532333 # 500000)%Q (Some 1430308800)
                                 (4998361 # 125000)%Q (Some 1428300000)
                                 0 0 200%Q)]> empty_states) ∧
  @main Exact.platform [Some Sample.ca1; Some Sample.ca2] = Undefined.
Proof. split; reflexivity. Qed.

(** ** The conversion to Fahrenheit *)

(** C4, as the specification states it, fails: 373.15 K is not converted
    to 212 exactly. The field is read as a [double], the constants 1.8 and 459.67
    are [double]s, and neither 373.15 nor 1.8 nor 459.67 is a binary
    fraction. With the x87 [long double] the result is below 212, and the
    [double] it is stored as is the one just below 212. *)
Lemma boiling_point_is_not_212 :
  let f := @fahrenheit IEEE.x87 (ldouble_of_double (atof "373.15")) in
  f ≠ @ldouble_of_int IEEE.x87 212 ∧
  SFeqb f (@ldouble_of_int IEEE.x87 212) = false ∧
  SFltb f (@ldouble_of_int IEEE.x87 212) = true ∧
  @double_of_ldouble IEEE.x87 f = S754_finite false 7459086882832383 (-45) ∧
  @double_of_int IEEE.x87 212 = S754_finite false 7459086882832384 (-45).
Proof. split_and!; [vm_compute; discriminate|vm_compute; reflexivity..]. Qed.

(** C4, amended. Every record's temperature is converted by the one
    expression [kelvin * 1.8 - 459.67], evaluated in [long double] on the
    [double] that [atof] returns with the [double] constants 1.8 and
    459.67, and the converted value is the one added to the sum and
    compared with both extrema. For 373.15 K the result is 212 in exact
    arithmetic; in binary floating point (x87 extended, binary64 or
    binary128 [long double]) it is below 212 by less than [2^-43]. *)
Theorem fahrenheit_one_formula :
  (∀ (P : Platform) line r,
     line_record line = Some r →
     ∃ t, CString.strtok line CString.TAB !! 8%nat = Some t ∧
          temperature_val r
          = ld_sub (ld_mul (ldouble_of_double (atof t)) (ldouble_of_double lit_1_8))
                   (ldouble_of_double lit_459_67)) ∧
  (∀ (P : Platform) states ns line states' ns',
     analyze_line (states, ns) line = Some (states', ns') →
     ∃ r p a n n',
       line_record line = Some r ∧ ns' = Some p ∧
       states' !! p
       = Some (Some (update_min (temperature_val r) (timestamp_long r)
                       (update_max (temperature_val r) (timestamp_long r)
                          (summed r n n' a))))) ∧
  @fahrenheit Exact.platform (ldouble_of_double (atof "373.15")) = 212%Q ∧
  (∀ prec emax,
     (prec, emax) = (64, 16384) ∨ (prec, emax) = (53, 1024) ∨
     (prec, emax) = (113, 16384) →
     let P := IEEE.platform prec emax in
     let f := @fahrenheit P (ldouble_of_double (atof "373.15")) in
     let gap := @ld_sub P (ldouble_of_int 212) f in
     @ld_lt P f (ldouble_of_int 212) = true ∧
     @ld_lt P gap (@ldouble_of_double P (S754_finite false 1 (-43))) = true).
Proof.
  split_and!.
  - intros P line r (c & ts & h & s & cc & l & t & Hr)%line_record_Some.
    simpl in Hr. destruct Hr as (_ & _ & _ & _ & _ & _ & Ht & ->).
    by exists t.
  - intros P states ns line states' ns' H.
    apply analyze_line_Some in H
      as (r & states1 & i & p & a0 & a & a' & Hr & _ & _ & -> & Ha & Hf & ->).
    apply fold_record_Some in Hf as (n & n' & _ & _ & ->).
    exists r, p, a, n, n'. split_and!; [done..|].
    apply list_lookup_insert_eq. by eapply deref_lt.
  - vm_compute. reflexivity.
  - intros prec emax [[= -> ->]|[[= -> ->]|[= -> ->]]]; split; vm_compute; reflexivity.
Qed.

Lemma fahrenheit_one_formula_witness :
  @line_record Exact.platform Sample.ca1 = Some sample_record ∧
  ∃ t, CString.strtok Sample.ca1 CString.TAB !! 8%nat = Some t ∧
       temperature_val sample_record
       = @ld_sub Exact.platform
           (ld_mul (ldouble_of_double (atof t)) (ldouble_of_double lit_1_8))
           (ldouble_of_double lit_459_67).
Proof.
  assert (@line_record Exact.platform Sample.ca1 = Some sample_record) as Hr
    by reflexivity.
  refine (conj Hr _).
  exact (proj1 fahrenheit_one_formula Exact.platform Sample.ca1 sample_record Hr).
Defined.

(** ** The capacity of the array *)

Section Capacity.
Context {P : Platform}.
Implicit Types (states : table) (a : climate_info).

(** The scan ends inside the array when it meets a NULL slot. *)
Lemma findStateIndex_from_is_Some i states c j :
  states !! j = Some None → is_Some (findStateIndex_from i states c).
Proof.
  revert i j. induction states as [|[s|] rest IH]; intros i j Hj; simpl.
  - done.
  - destruct (String.eqb (code s) c); [by eexists|].
    destruct j as [|j]; [done|]. by eapply IH.
  - by eexists.
Qed.

(** It leaves the array when every slot holds a struct of another code. *)
Lemma findStateIndex_from_None i states c :
  (∀ q o, states !! q = Some o → ∃ a, o = Some a ∧ code a ≠ c) →
  findStateIndex_from i states c = None.
Proof.
  revert i. induction states as [|o rest IH]; intros i Hall; simpl; [done|].
  destruct (Hall 0%nat o eq_refl) as (a & -> & Hc).
  apply String.eqb_neq in Hc. rewrite Hc.
  apply IH. intros q o Hq. by apply (Hall (S q)).
Qed.

Lemma populated_lookup k states q :
  populated k states → (q < NUM_STATES)%nat →
  if decide (q < k)%nat then ∃ a, states !! q = Some (Some a)
  else states !! q = Some None.
Proof. intros [_ H]. apply H. Qed.

Lemma populated_insert k states a :
  populated k states → (k < NUM_STATES)%nat →
  populated (S k) (<[k := Some a]> states).
Proof.
  intros [Hlen Hpop] Hk. split; [by rewrite length_insert|].
  intros q Hq. specialize (Hpop q Hq).
  destruct (decide (q = k)) as [->|Hne].
  - destruct (decide (k < S k)%nat); [|lia].
    exists a. apply list_lookup_insert_eq. lia.
  - rewrite list_lookup_insert_ne by done.
    destruct (decide (q < k)%nat), (decide (q < S k)%nat); try done; lia.
Qed.

(** C8, amended. The array has [NUM_STATES] = 50 slots. While fewer than
    50 states are in it, the scan of [findStateIndex] stays inside the
    array and every state code of at most two characters is found or is
    given the first NULL slot; once 50 states are in it, the scan for a
    code that is not there reads [states[50]], past the end of the array,
    and no struct can be created for the code. *)
Theorem table_holds_fifty_states (k : nat) states ns c :
  populated k states →
  (String.length c ≤ 2)%nat →
  ((k < NUM_STATES)%nat →
    ∃ states1 ns1 i a,
      get_or_create states ns c = Some (states1, ns1, i) ∧
      0 ≤ i ∧ (Z.to_nat i < NUM_STATES)%nat ∧
      states1 !! Z.to_nat i = Some (Some a) ∧ code a = c ∧
      ((states1 = states ∧ ns1 = ns ∧ populated k states1)
       ∨ (absent c states ∧ Z.to_nat i = k ∧ ns1 = Some k ∧
          populated (S k) states1)))
  ∧ (k = NUM_STATES → absent c states →
     findStateIndex states c = None ∧ get_or_create states ns c = None).
Proof.
  intros Hpop Hc. pose proof Hpop as [Hlen Hslots]. split.
  - intros Hk.
    assert (states !! k = Some None) as Hnull.
    { pose proof (populated_lookup k states k Hpop Hk) as H.
      destruct (decide (k < k)%nat); [lia|done]. }
    destruct (findStateIndex_from_is_Some 0 states c k Hnull) as [r Hr].
    fold (findStateIndex states c) in Hr.
    unfold get_or_create. rewrite Hr. simpl.
    destruct (Z.ltb_spec r 0) as [Hneg|Hpos].
    + apply findStateIndex_absent in Hr as Habs; [|done|rewrite Hlen; done].
      simpl in Habs. destruct Habs as [Hnull' Hscan].
      set (i := if r =? -50 then 0 else r * -1) in *.
      assert (0 ≤ i) as Hi by (subst i; destruct (r =? -50); lia).
      assert (Z.to_nat i = k) as Hik.
      { apply lookup_lt_Some in Hnull' as Hlt. rewrite Hlen in Hlt.
        pose proof (populated_lookup k states (Z.to_nat i) Hpop Hlt) as H1.
        destruct (decide (Z.to_nat i < k)%nat) as [Hlt'|Hge].
        { destruct H1 as [a Ha]. congruence. }
        destruct (decide (k < Z.to_nat i)%nat) as [Hgt|]; [|lia].
        destruct (Hscan k Hgt) as (b & Hb & _). congruence. }
      unfold new_climate_info.
      destruct (Nat.leb_spec (String.length c) 2) as [_|]; [|lia]. simpl.
      eexists _, _, i, _. split; [reflexivity|].
      rewrite Hik. split; [done|]. split; [done|].
      split; [apply list_lookup_insert_eq; by rewrite Hlen|].
      split; [done|].
      right. split_and!; [|done|done|by apply populated_insert].
      intros q a Ha. apply lookup_lt_Some in Ha as Hlt. rewrite Hlen in Hlt.
      pose proof (populated_lookup k states q Hpop Hlt) as H1.
      destruct (decide (q < k)%nat) as [Hqk|]; [|congruence].
      rewrite <- Hik in Hqk. destruct (Hscan q Hqk) as (b & Hb & Hne). congruence.
    + apply findStateIndex_found in Hr as (a & Ha & Hca); [|done].
      exists states, ns, r, a. split_and!; try done.
      * apply lookup_lt_Some in Ha. by rewrite Hlen in Ha.
      * by left.
  - intros -> Habs.
    assert (findStateIndex states c = None) as Hnone.
    { apply findStateIndex_from_None. intros q o Hq.
      apply lookup_lt_Some in Hq as Hlt. rewrite Hlen in Hlt.
      pose proof (populated_lookup NUM_STATES states q Hpop Hlt) as H1.
      destruct (decide (q < NUM_STATES)%nat); [|lia].
      destruct H1 as [a Ha]. exists a. split; [congruence|]. by eapply Habs. }
    split; [done|]. unfold get_or_create. by rewrite Hnone.
Qed.

End Capacity.

Lemma populated_empty {P : Platform} : populated 0 (@empty_states P).
Proof.
  split; [reflexivity|]. intros q Hq.
  destruct (decide (q < 0)%nat); [lia|]. by apply lookup_replicate_2.
Qed.

Lemma table_holds_fifty_states_witness :
  populated 0 (@empty_states Exact.platform) ∧
  (String.length "CA" ≤ 2)%nat ∧
  ((0 < NUM_STATES)%nat →
    ∃ states1 ns1 i a,
      @get_or_create Exact.platform empty_states None "CA" = Some (states1, ns1, i) ∧
      0 ≤ i ∧ (Z.to_nat i < NUM_STATES)%nat ∧
      states1 !! Z.to_nat i = Some (Some a) ∧ code a = "CA" ∧
      ((states1 = empty_states ∧ ns1 = None ∧ populated 0 states1)
       ∨ (absent "CA" (@empty_states Exact.platform) ∧ Z.to_nat i = 0%nat ∧
          ns1 = Some 0%nat ∧ populated 1 states1))).
Proof.
  assert (String.length "CA" ≤ 2)%nat as Hc by (vm_compute; lia).
  refine (conj populated_empty (conj Hc _)).
  exact (proj1 (table_holds_fifty_states 0 empty_states None "CA" populated_empty Hc)).
Defined.

(** C8, as the specification states it, fails: a file with 50 different
    state codes is processed, and one with 51 is not: the scan for the 51st code
    passes the 50 slots in use and reads [states[50]]. *)
Lemma fifty_first_state_overruns :
  NoDup (map nth_state_code (seq 0 51)) ∧
  is_Some (@analyze_file Exact.platform (file_of_states 50) empty_states NUM_STATES) ∧
  @analyze_file Exact.platform (file_of_states 51) empty_states NUM_STATES = None.
Proof.
  split_and!.
  - apply (bool_decide_unpack _). vm_compute. exact I.
  - apply (bool_decide_unpack _). vm_compute. exact I.
  - vm_cast_no_check (@eq_refl (option (list (option (@climate_info Exact.platform)))) None).
Qed.

(** ** The two counters *)

Section Counters.
Context {P : Platform}.
Implicit Types (states : table) (a : climate_info).

(** What the first line of a run leaves, when the run goes on. *)
Lemma first_line_adds c line r st :
  recorded c line r →
  analyze_line (empty_states, None) line = Some st →
  ∃ s l, counting c s l st ∧
         ulong_add_ld 0 (snow_val r) = Some s ∧
         ulong_add_ld 0 (lightning_val r) = Some l.
Proof.
  intros [Hr <-] H. rewrite analyze_line_eq, Hr in H. simpl in H.
  unfold get_or_create, new_climate_info in H. simpl in H.
  destruct (String.length (state_code r) <=? 2)%nat; simpl in H; [|done].
  unfold store in H. simpl in H.
  destruct (fold_record r _) as [a'|] eqn:Hf; simpl in H; [|done].
  injection H as <-.
  destruct (fold_record_fields _ _ _ Hf) as (Hc & _ & _ & _ & _ & Hs & Hl).
  exists (num_snowcover a'), (num_lightning a'). split; [|done].
  by exists a', (replicate 49 None).
Qed.

(** What a further line of the same state leaves. *)
Lemma next_line_adds c line r s l st st' :
  counting c s l st → recorded c line r →
  analyze_line st line = Some st' →
  ∃ s' l', counting c s' l' st' ∧
           ulong_add_ld s (snow_val r) = Some s' ∧
           ulong_add_ld l (lightning_val r) = Some l'.
Proof.
  intros (a & rest & -> & Hca & <- & <-) [Hr Hcr] H.
  rewrite analyze_line_eq, Hr in H. simpl in H.
  unfold get_or_create, findStateIndex in H. simpl in H.
  rewrite Hcr, <- Hca, String.eqb_refl in H. simpl in H.
  unfold store in H. simpl in H.
  destruct (fold_record r _) as [a'|] eqn:Hf; simpl in H; [|done].
  injection H as <-.
  destruct (fold_record_fields _ _ _ Hf) as (Hc & _ & _ & _ & _ & Hs & Hl).
  exists (num_snowcover a'), (num_lightning a'). split; [|done].
  exists a', rest. split_and!; [done| |done|done].
  by rewrite Hc.
Qed.

Lemma more_lines_add c lines rs s l st st' :
  Forall2 (recorded c) lines rs →
  counting c s l st →
  analyze_lines lines st = Some st' →
  ∃ s' l', counting c s' l' st' ∧
           add_flags s (snow_val <$> rs) = Some s' ∧
           add_flags l (lightning_val <$> rs) = Some l'.
Proof.
  intros Hall. revert s l st.
  induction Hall as [|line r lines rs Hr Hall IH]; intros s l st Hst H; simpl in H.
  - injection H as <-. by exists s, l.
  - destruct (analyze_line st line) as [st1|] eqn:H1; simpl in H; [|done].
    destruct (next_line_adds _ _ _ _ _ _ _ Hst Hr H1) as (s1 & l1 & Hst1 & Hs1 & Hl1).
    destruct (IH _ _ _ Hst1 H) as (s' & l' & Hst' & Hs' & Hl').
    exists s', l'. split; [done|].
    unfold add_flags in *. rewrite !fmap_cons. simpl. by rewrite Hs1, Hl1.
Qed.

Context {L : CountLaws P}.

Lemma fold_record_counts r a ks kl :
  snow_val r = ldouble_of_double (double_of_int ks) →
  lightning_val r = ldouble_of_double (double_of_int kl) →
  0 ≤ num_snowcover a → 0 ≤ ks → num_snowcover a + ks < 2 ^ 53 →
  0 ≤ num_lightning a → 0 ≤ kl → num_lightning a + kl < 2 ^ 53 →
  ∃ a', fold_record r a = Some a' ∧ code a' = code a ∧
        num_snowcover a' = num_snowcover a + ks ∧
        num_lightning a' = num_lightning a + kl.
Proof.
  intros Hs Hl ? ? ? ? ? ?.
  assert (ulong_add_ld (num_snowcover a) (snow_val r) = Some (num_snowcover a + ks))
    as Hsnow by (unfold ulong_add_ld; rewrite Hs; by apply ulong_add_int).
  assert (ulong_add_ld (num_lightning a) (lightning_val r)
          = Some (num_lightning a + kl))
    as Hlight by (unfold ulong_add_ld; rewrite Hl; by apply ulong_add_int).
  eexists. split.
  - apply fold_record_Some. by eexists _, _.
  - pose proof (update_min_fields (temperature_val r) (timestamp_long r)
      (update_max (temperature_val r) (timestamp_long r)
         (summed r (num_snowcover a + ks) (num_lightning a + kl) a))) as Hmin.
    pose proof (update_max_fields (temperature_val r) (timestamp_long r)
      (summed r (num_snowcover a + ks) (num_lightning a + kl) a)) as Hmax.
    simpl in Hmin, Hmax.
    destruct Hmin as (-> & _ & _ & _ & _ & -> & -> & _).
    by destruct Hmax as (-> & _ & _ & _ & _ & -> & -> & _).
Qed.

(** The first line of a run creates the struct in slot 0. *)
Lemma first_line_counts c line k :
  (String.length c ≤ 2)%nat → flagged c line k →
  k.1 < 2 ^ 53 → k.2 < 2 ^ 53 →
  ∃ st, analyze_line (empty_states, None) line = Some st ∧
        counting c k.1 k.2 st.
Proof.
  intros Hc (r & Hr & <- & Hs & Hl & ? & ?) ? ?.
  rewrite analyze_line_eq, Hr. simpl.
  unfold get_or_create, new_climate_info. simpl.
  destruct (Nat.leb_spec (String.length (state_code r)) 2) as [_|]; [|lia]. simpl.
  unfold store. simpl.
  edestruct (fold_record_counts r) as (a' & -> & Hcode & Hsnow & Hlight);
    [exact Hs|exact Hl|simpl; lia..|].
  simpl. eexists. split; [reflexivity|].
  exists a', (replicate 49 None). split; [done|]. by rewrite Hcode, Hsnow, Hlight.
Qed.

(** A further line of the same state is folded into slot 0. *)
Lemma next_line_counts c line k s l st :
  counting c s l st → flagged c line k →
  0 ≤ s → 0 ≤ l → s + k.1 < 2 ^ 53 → l + k.2 < 2 ^ 53 →
  ∃ st', analyze_line st line = Some st' ∧ counting c (s + k.1) (l + k.2) st'.
Proof.
  intros (a & rest & -> & Hca & <- & <-) (r & Hr & Hcr & Hs & Hl & ? & ?) ? ? ? ?.
  rewrite analyze_line_eq, Hr. simpl.
  unfold get_or_create, findStateIndex. simpl.
  rewrite Hcr, <- Hca, String.eqb_refl. simpl.
  unfold store. simpl.
  edestruct (fold_record_counts r (count_record a)) as (a' & -> & Hcode & Hsnow & Hlight);
    [exact Hs|exact Hl|simpl; lia..|].
  simpl. eexists. split; [reflexivity|].
  exists a', rest. split; [done|]. by rewrite Hcode, Hsnow, Hlight.
Qed.

Lemma Zsum_cons (k : Z) (l : list Z) : Zsum (k :: l) = k + Zsum l.
Proof. reflexivity. Qed.

Lemma Zsum_nonneg (l : list Z) : Forall (λ k, 0 ≤ k) l → 0 ≤ Zsum l.
Proof. induction 1; rewrite ?Zsum_cons; [done|lia]. Qed.

Lemma flagged_nonneg c lines (ks : list (Z * Z)) :
  Forall2 (flagged c) lines ks →
  Forall (λ k, 0 ≤ k) ks.*1 ∧ Forall (λ k, 0 ≤ k) ks.*2.
Proof.
  induction 1 as [|line k lines ks (r & _ & _ & _ & _ & ? & ?) _ [IH1 IH2]];
    simpl; split; by constructor.
Qed.

Lemma more_lines_count c lines (ks : list (Z * Z)) s l st :
  Forall2 (flagged c) lines ks →
  counting c s l st → 0 ≤ s → 0 ≤ l →
  s + Zsum ks.*1 < 2 ^ 53 → l + Zsum ks.*2 < 2 ^ 53 →
  ∃ st', analyze_lines lines st = Some st' ∧
         counting c (s + Zsum ks.*1) (l + Zsum ks.*2) st'.
Proof.
  intros Hall. revert s l st.
  induction Hall as [|line k lines ks Hk Hall IH]; intros s l st Hst Hs Hl Hbs Hbl.
  - exists st. simpl. by rewrite !Z.add_0_r.
  - rewrite !fmap_cons, !Zsum_cons in *.
    assert (0 ≤ k.1 ∧ 0 ≤ k.2) as [? ?]
      by (destruct Hk as (? & _ & _ & _ & _ & ? & ?); done).
    destruct (flagged_nonneg _ _ _ Hall) as [?%Zsum_nonneg ?%Zsum_nonneg].
    destruct (next_line_counts c line k s l st) as (st1 & Hst1 & Hc1);
      [done|done|done|done|lia|lia|].
    destruct (IH (s + k.1) (l + k.2) st1) as (st' & Hst' & Hc'); [done|lia..|].
    exists st'. split; [simpl; by rewrite Hst1|]. by rewrite !Z.add_assoc.
Qed.

End Counters.


(** A file whose lines are all of one state and whose snow and lightning
    fields are integers that are not negative is processed to the end, and
    the two counters are the sums of the field values. *)
Lemma integer_flags_counted {P : Platform} {L : CountLaws P}
    (c file : string) (ks : list (Z * Z)) :
  (String.length c ≤ 2)%nat →
  ks ≠ [] →
  Forall2 (flagged c) (CString.fgets line_sz file) ks →
  Zsum ks.*1 < 2 ^ 53 →
  Zsum ks.*2 < 2 ^ 53 →
  ∃ states a,
    analyze_file file empty_states NUM_STATES = Some states ∧
    states !! 0%nat = Some (Some a) ∧ code a = c ∧
    num_snowcover a = Zsum ks.*1 ∧ num_lightning a = Zsum ks.*2.
Proof.
  intros Hc Hne Hall Hs Hl. unfold analyze_file.
  destruct Hall as [|line k lines ks Hk Hall]; [done|].
  rewrite !fmap_cons, !Zsum_cons in *.
  assert (0 ≤ k.1 ∧ 0 ≤ k.2) as [? ?]
    by (destruct Hk as (? & _ & _ & _ & _ & ? & ?); done).
  destruct (flagged_nonneg _ _ _ Hall) as [?%Zsum_nonneg ?%Zsum_nonneg].
  destruct (first_line_counts c line k) as (st1 & Hst1 & Hc1); [done|done|lia|lia|].
  destruct (more_lines_count c lines ks k.1 k.2 st1) as (st' & Hst' & Hc');
    [done..|].
  destruct Hc' as (a & rest & -> & Hca & Hsnow & Hlight).
  exists (Some a :: rest), a. split; [|done].
  simpl. by rewrite Hst1; simpl; rewrite Hst'.
Qed.



(** ** The sample runs in x87 arithmetic *)

(** The three sample files give three structs with ordered extrema, and the
    three flagged lines count three records with snow cover. *)
Example sample_runs_x87 :
  slot_summary <$> @main_loop IEEE.x87 sample_files empty_states
  = Some [("CA", 2, true); ("TN", 1, true); ("WA", 1, true)] ∧
  (λ states : list (option (@climate_info IEEE.x87)),
     match states with
     | Some a :: _ => (num_records a, num_snowcover a, num_lightning a)
     | _ => (0, 0, 0)
     end) <$> @analyze_file IEEE.x87 sample_flags_file empty_states NUM_STATES
  = Some (3, 3, 0).
Proof. split; vm_compute; reflexivity. Qed.

(** * Properties of whole runs *)

(** ** The structs of the array as a list *)

Section Slots.
Context {P : Platform}.
Implicit Types (l : list climate_info) (states : table) (a : climate_info).

Lemma slots_length l : (length l ≤ NUM_STATES)%nat → length (slots l) = NUM_STATES.
Proof. intros H. unfold slots. rewrite length_app, length_fmap, length_replicate. lia. Qed.

Lemma deref_slots l q : deref (slots l) q = l !! q.
Proof.
  unfold deref, slots. destruct (decide (q < length l)%nat) as [Hlt|Hge].
  - rewrite lookup_app_l by (by rewrite length_fmap).
    rewrite list_lookup_fmap. by destruct (l !! q).
  - rewrite (lookup_ge_None_2 l q) by lia.
    rewrite lookup_app_r by (rewrite length_fmap; lia).
    destruct (replicate _ _ !! _) as [o|] eqn:Ho; [|done].
    apply lookup_replicate in Ho as [-> _]. done.
Qed.

Lemma slots_insert l q a :
  (q < length l)%nat → <[q := Some a]> (slots l) = slots (<[q := a]> l).
Proof.
  intros Hq. unfold slots. rewrite length_insert.
  rewrite insert_app_l by (by rewrite length_fmap).
  by rewrite list_fmap_insert.
Qed.

Lemma slots_append l a :
  (length l < NUM_STATES)%nat →
  <[length l := Some a]> (slots l) = slots (l ++ [a]).
Proof.
  intros Hl. unfold slots. rewrite length_app. simpl.
  rewrite insert_app_r_alt by (rewrite length_fmap; lia).
  rewrite length_fmap, Nat.sub_diag.
  destruct (NUM_STATES - length l)%nat as [|n] eqn:Hn; [lia|].
  replace (NUM_STATES - (length l + 1))%nat with n by lia.
  simpl. by rewrite fmap_app, <- app_assoc.
Qed.

Lemma store_slots l q f : store (slots l) q f = slots <$> update l q f.
Proof.
  unfold store, update. rewrite deref_slots.
  destruct (l !! q) as [a|] eqn:Ha; simpl; [|done].
  destruct (f a) as [a'|]; simpl; [|done].
  rewrite slots_insert; [done|]. by eapply lookup_lt_Some.
Qed.

Lemma omap_slots l : omap id (slots l) = l.
Proof.
  unfold slots. rewrite omap_app.
  assert (∀ n, omap id (replicate n (@None climate_info)) = []) as ->
    by (induction n; simpl; done).
  rewrite app_nil_r. induction l; simpl; [done|]. by f_equal.
Qed.

Lemma findStateIndex_from_slots i l (n : nat) c :
  findStateIndex_from i ((Some <$> l) ++ replicate n None) c =
  match list_find (λ a, code a = c) l with
  | Some (j, _) => Some (i + Z.of_nat j)
  | None => match n with
            | O => None
            | S _ => Some (encode_slot (i + Z.of_nat (length l)))
            end
  end.
Proof.
  revert i. induction l as [|a l IH]; intros i; simpl.
  - destruct n; simpl; [done|]. by rewrite Z.add_0_r.
  - destruct (String.eqb_spec (code a) c) as [Hc|Hc].
    + rewrite decide_True by done. simpl. by rewrite Z.add_0_r.
    + rewrite decide_False by done. rewrite IH.
      destruct (list_find _ l) as [[j b]|]; simpl.
      * f_equal. lia.
      * destruct n; [done|]. do 2 f_equal. lia.
Qed.

Lemma findStateIndex_slots l c :
  findStateIndex (slots l) c =
  match list_find (λ a, code a = c) l with
  | Some (j, _) => Some (Z.of_nat j)
  | None => if decide (length l < NUM_STATES)%nat
            then Some (encode_slot (Z.of_nat (length l))) else None
  end.
Proof.
  unfold findStateIndex, slots. rewrite findStateIndex_from_slots.
  destruct (list_find _ l) as [[j b]|]; [done|].
  destruct (decide (length l < NUM_STATES)%nat) as [Hlt|Hge].
  - destruct (NUM_STATES - length l)%nat eqn:E; [lia|done].
  - by replace (NUM_STATES - length l)%nat with 0%nat by lia.
Qed.

Lemma get_or_create_slots l ns c :
  get_or_create (slots l) ns c =
  (λ '(l', ns', i), (slots l', ns', Z.of_nat i)) <$> find_or_append l ns c.
Proof.
  unfold get_or_create, find_or_append. rewrite findStateIndex_slots.
  destruct (list_find _ l) as [[j b]|]; simpl.
  - destruct (Z.ltb_spec (Z.of_nat j) 0); [lia|done].
  - destruct (decide (length l < NUM_STATES)%nat) as [Hlt|Hge]; simpl; [|done].
    unfold NUM_STATES in Hlt.
    assert (encode_slot (Z.of_nat (length l)) < 0) as Hneg.
    { unfold encode_slot. destruct (Z.eqb_spec (Z.of_nat (length l)) 0); lia. }
    destruct (Z.ltb_spec (encode_slot (Z.of_nat (length l))) 0); [|lia].
    destruct (new_climate_info c) as [fresh|]; simpl; [|done].
    assert ((if encode_slot (Z.of_nat (length l)) =? -50 then 0
             else encode_slot (Z.of_nat (length l)) * -1) = Z.of_nat (length l)) as ->.
    { unfold encode_slot. destruct (Z.eqb_spec (Z.of_nat (length l)) 0) as [E|E].
      - simpl. lia.
      - destruct (Z.eqb_spec (- Z.of_nat (length l)) (-50)); lia. }
    rewrite Nat2Z.id, slots_append by done. done.
Qed.

Lemma analyze_line_slots l ns line :
  analyze_line (slots l, ns) line =
  (λ st, (slots st.1, st.2)) <$> step (l, ns) line.
Proof.
  rewrite analyze_line_eq. unfold step. simpl.
  destruct (line_record line) as [r|]; simpl; [|done].
  rewrite get_or_create_slots.
  destruct (find_or_append l ns (state_code r)) as [[[l1 ns1] i]|]; simpl; [|done].
  rewrite Nat2Z.id, store_slots.
  destruct (update l1 i _) as [l2|]; simpl; [|done].
  destruct ns1 as [p|]; simpl; [|done].
  rewrite store_slots. by destruct (update l2 p _).
Qed.

Lemma analyze_lines_slots lines l ns :
  analyze_lines lines (slots l, ns) =
  (λ st, (slots st.1, st.2)) <$> steps lines (l, ns).
Proof.
  revert l ns. induction lines as [|line lines IH]; intros l ns; simpl; [done|].
  rewrite analyze_line_slots.
  destruct (step (l, ns) line) as [[l' ns']|]; simpl; [|done]. apply IH.
Qed.

End Slots.

(** ** State codes in their order of first appearance, and tallies *)

Section Tally.
Implicit Types (t : list (string * Z)) (cs seen : list string) (c : string).

Lemma add_code_elem_of seen c x : x ∈ add_code seen c ↔ x ∈ seen ∨ x = c.
Proof.
  unfold add_code. destruct (decide (c ∈ seen)).
  - split; [by left|]. intros [?| ->]; done.
  - rewrite elem_of_app, list_elem_of_singleton. done.
Qed.

Lemma add_code_NoDup seen c : NoDup seen → NoDup (add_code seen c).
Proof.
  unfold add_code. destruct (decide (c ∈ seen)); [done|].
  intros H. apply NoDup_app. split_and!; [done| |apply NoDup_singleton].
  intros x Hx ->%list_elem_of_singleton. done.
Qed.

Lemma foldl_add_code_elem_of cs seen x :
  x ∈ foldl add_code seen cs ↔ x ∈ seen ∨ x ∈ cs.
Proof.
  revert seen. induction cs as [|c cs IH]; intros seen; simpl.
  - rewrite elem_of_nil. tauto.
  - rewrite IH, add_code_elem_of, elem_of_cons. tauto.
Qed.

Lemma foldl_add_code_NoDup cs seen : NoDup seen → NoDup (foldl add_code seen cs).
Proof.
  revert seen. induction cs as [|c cs IH]; intros seen H; simpl; [done|].
  by apply IH, add_code_NoDup.
Qed.

Lemma first_seen_elem_of cs x : x ∈ first_seen cs ↔ x ∈ cs.
Proof. unfold first_seen. rewrite foldl_add_code_elem_of, elem_of_nil. tauto. Qed.

Lemma first_seen_NoDup cs : NoDup (first_seen cs).
Proof. apply foldl_add_code_NoDup, NoDup_nil_2. Qed.

Lemma first_seen_snoc cs c : first_seen (cs ++ [c]) = add_code (first_seen cs) c.
Proof. unfold first_seen. by rewrite foldl_app. Qed.

Lemma occurrences_snoc c x cs :
  occurrences c (cs ++ [x]) = occurrences c cs + (if decide (x = c) then 1 else 0).
Proof.
  unfold occurrences. rewrite filter_app, length_app. simpl.
  rewrite filter_cons, filter_nil. destruct (decide (x = c)); simpl; lia.
Qed.

Lemma occurrences_nonneg c cs : 0 ≤ occurrences c cs.
Proof. unfold occurrences. lia. Qed.

Lemma occurrences_not_elem_of c cs : c ∉ cs → occurrences c cs = 0.
Proof.
  intros Hc. unfold occurrences.
  assert (filter (λ x, x = c) cs = []) as ->; [|done].
  induction cs as [|x cs IH]; [done|].
  rewrite filter_cons. apply not_elem_of_cons in Hc as [Hne Hc].
  rewrite decide_False by done. by apply IH.
Qed.

Lemma occurrences_elem_of c cs : c ∈ cs → 1 ≤ occurrences c cs.
Proof.
  intros Hc. unfold occurrences.
  assert (c ∈ filter (λ x, x = c) cs) as Hin by (by apply list_elem_of_filter).
  destruct (filter _ cs); [by apply elem_of_nil in Hin|simpl; lia].
Qed.

Lemma tally_of_nil : tally_of [] [].
Proof. split; [done|]. intros i c n Hi. done. Qed.

Lemma bump_tally_of seen t c : tally_of seen t → tally_of (seen ++ [c]) (bump c t).
Proof.
  intros [Hkeys Hn]. unfold bump.
  pose proof (first_seen_NoDup seen) as Hnd. rewrite <- Hkeys in Hnd.
  destruct (list_find _ t) as [[i [c' n]]|] eqn:Hfind.
  - apply list_find_Some in Hfind as (Hi & Hc & _). simpl in Hc. subst c'.
    assert (c ∈ first_seen seen) as Hin.
    { rewrite <- Hkeys. apply list_elem_of_fmap. exists (c, n).
      split; [done|]. by eapply list_elem_of_lookup_2. }
    split.
    + rewrite list_fmap_insert. simpl.
      rewrite list_insert_id by (by rewrite list_lookup_fmap, Hi).
      rewrite first_seen_snoc, Hkeys. unfold add_code. by rewrite decide_True.
    + intros j c'' n'' Hj. rewrite occurrences_snoc.
      destruct (decide (i = j)) as [<-|Hne].
      * rewrite list_lookup_insert_eq in Hj by (by eapply lookup_lt_Some).
        injection Hj as <- <-. rewrite decide_True by done.
        rewrite (Hn _ _ _ Hi). by rewrite Z.add_mod_idemp_l.
      * rewrite list_lookup_insert_ne in Hj by done.
        destruct (decide (c = c'')) as [<-|Hc].
        { exfalso. apply Hne. eapply NoDup_lookup; [exact Hnd|..].
          - by rewrite list_lookup_fmap, Hi.
          - by rewrite list_lookup_fmap, Hj. }
        rewrite Z.add_0_r. eauto.
  - apply list_find_None in Hfind.
    assert (c ∉ first_seen seen) as Hnin.
    { rewrite <- Hkeys. intros ([c' n] & Hc & Hin)%list_elem_of_fmap. simpl in Hc.
      subst c'. rewrite Forall_forall in Hfind. by apply (Hfind _ Hin). }
    split.
    + rewrite fmap_app. simpl. rewrite first_seen_snoc, Hkeys.
      unfold add_code. by rewrite decide_False.
    + intros j c'' n'' Hj. rewrite occurrences_snoc.
      apply lookup_app_Some in Hj as [Hj|[Hlen Hj]].
      * destruct (decide (c = c'')) as [<-|Hc].
        { exfalso. apply Hnin. rewrite <- Hkeys. apply list_elem_of_fmap.
          exists (c, n''). split; [done|]. by eapply list_elem_of_lookup_2. }
        rewrite Z.add_0_r. eauto.
      * apply list_lookup_singleton_Some in Hj as [_ [= <- <-]].
        rewrite decide_True by done.
        rewrite occurrences_not_elem_of by (by rewrite <- first_seen_elem_of).
        done.
Qed.

Lemma foldl_bump_tally_of cs seen t :
  tally_of seen t → tally_of (seen ++ cs) (foldl (λ t c, bump c t) t cs).
Proof.
  revert seen t. induction cs as [|c cs IH]; intros seen t Ht; simpl.
  - by rewrite app_nil_r.
  - replace (seen ++ c :: cs) with ((seen ++ [c]) ++ cs)
      by (by rewrite <- app_assoc).
    by apply IH, bump_tally_of.
Qed.

End Tally.

(** ** What a run leaves of the state codes and record counts *)

Section Runs.
Context {P : Platform}.
Implicit Types (l : list climate_info) (states : table) (a : climate_info).

Lemma main_loop_slots files l : main_loop files (slots l) = slots <$> runs files l.
Proof.
  revert l. induction files as [|[file|] files IH]; intros l; simpl; [done| |done].
  unfold analyze_file. rewrite analyze_lines_slots.
  destruct (steps _ (l, None)) as [[l' ns']|]; simpl; [|done]. apply IH.
Qed.

Lemma empty_states_slots : empty_states = slots [].
Proof. reflexivity. Qed.

Lemma update_Some l i f l' :
  update l i f = Some l' ↔ ∃ a a', l !! i = Some a ∧ f a = Some a' ∧ l' = <[i := a']> l.
Proof.
  unfold update. split.
  - destruct (l !! i) as [a|]; simpl; [|done].
    destruct (f a) as [a'|] eqn:Hf; simpl; [|done].
    intros [= <-]. by exists a, a'.
  - intros (a & a' & -> & Hf & ->). simpl. by rewrite Hf.
Qed.

Lemma update_lookup l i f a :
  l !! i = Some a → update l i f = (λ a', <[i := a']> l) <$> f a.
Proof. unfold update. intros ->. simpl. by destruct (f a). Qed.

Lemma update_length l i f l' : update l i f = Some l' → length l' = length l.
Proof. intros (a & a' & _ & _ & ->)%update_Some. apply length_insert. Qed.

Lemma update_tally l i f l' :
  update l i f = Some l' →
  (∀ a a', f a = Some a' → code a' = code a ∧ num_records a' = num_records a) →
  tally l' = tally l.
Proof.
  intros (a & a' & Ha & Hf & ->)%update_Some Hsame.
  destruct (Hsame _ _ Hf) as [Hc Hn]. unfold tally.
  rewrite list_fmap_insert, Hc, Hn.
  apply list_insert_id. by rewrite list_lookup_fmap, Ha.
Qed.

Lemma fold_record_tally r a a' :
  fold_record r a = Some a' → code a' = code a ∧ num_records a' = num_records a.
Proof. intros (? & ? & _)%fold_record_fields. done. Qed.

Lemma line_record_code line r :
  line_record line = Some r → line_code line = Some (state_code r).
Proof.
  intros (c & ts & h & s & cc & l & t & Hr)%line_record_Some.
  simpl in Hr. destruct Hr as (Hc & _ & _ & _ & _ & _ & _ & ->). done.
Qed.

(** One iteration counts one record of the state of the line. *)
Lemma list_find_tally l c :
  list_find (λ x : string * Z, x.1 = c) (tally l)
  = prod_map id (λ a, (code a, num_records a)) <$> list_find (λ a, code a = c) l.
Proof. unfold tally. by rewrite list_find_fmap. Qed.

Lemma step_tally l ns line l' ns' :
  step (l, ns) line = Some (l', ns') →
  ∃ c, line_code line = Some c ∧ tally l' = bump c (tally l) ∧
       ((length l ≤ NUM_STATES)%nat → (length l' ≤ NUM_STATES)%nat).
Proof.
  unfold step. simpl. intros H.
  destruct (line_record line) as [r|] eqn:Hr; simpl in H; [|done].
  apply line_record_code in Hr. exists (state_code r). split; [done|].
  revert H. unfold find_or_append, bump.
  rewrite list_find_tally.
  destruct (list_find _ l) as [[i b]|] eqn:Hfind; simpl.
  - apply list_find_Some in Hfind as (Hb & Hc & _).
    rewrite (update_lookup _ _ _ _ Hb). simpl.
    destruct ns as [p|]; simpl; [|done].
    destruct (update _ p _) as [l3|] eqn:Hup; simpl; [|done].
    intros [= <- <-]. split.
    + rewrite (update_tally _ _ _ _ Hup) by apply fold_record_tally.
      unfold tally. rewrite list_fmap_insert. by rewrite <- Hc.
    + apply update_length in Hup. rewrite Hup, length_insert. done.
  - destruct (decide (length l < NUM_STATES)%nat) as [Hlt|]; simpl; [|done].
    destruct (new_climate_info (state_code r)) as [fresh|] eqn:Hfresh; simpl; [|done].
    rewrite (update_lookup _ _ _ fresh) by (by rewrite lookup_app_r, Nat.sub_diag).
    simpl. rewrite insert_app_r_alt, Nat.sub_diag by done. simpl.
    destruct (update _ (length l) _) as [l3|] eqn:Hup; simpl; [|done].
    intros [= <- <-]. split.
    + rewrite (update_tally _ _ _ _ Hup) by apply fold_record_tally.
      unfold tally. rewrite fmap_app. simpl.
      unfold new_climate_info in Hfresh.
      destruct (String.length _ <=? 2)%nat; [|done]. by injection Hfresh as <-.
    + apply update_length in Hup. rewrite Hup, length_app. simpl. lia.
Qed.

End Runs.

Section RunInvariant.
Context {P : Platform}.
Implicit Types (l : list climate_info) (states : table) (a : climate_info).
Implicit Types (t : list (string * Z)) (cs seen : list string) (c : string).

Lemma bump_fst c t : (bump c t).*1 = add_code (t.*1) c.
Proof.
  unfold bump, add_code.
  destruct (list_find _ t) as [[i [c' n]]|] eqn:Hfind.
  - apply list_find_Some in Hfind as (Hi & Hc & _). simpl in Hc. subst c'.
    rewrite decide_True
      by (apply list_elem_of_fmap; exists (c, n); split;
          [done|by eapply list_elem_of_lookup_2]).
    rewrite list_fmap_insert. simpl. apply list_insert_id.
    by rewrite list_lookup_fmap, Hi.
  - apply list_find_None in Hfind.
    rewrite decide_False.
    + by rewrite fmap_app.
    + intros ([c' n] & -> & Hin)%list_elem_of_fmap.
      rewrite Forall_forall in Hfind. by apply (Hfind _ Hin).
Qed.

Lemma tally_fst l : (tally l).*1 = code <$> l.
Proof. unfold tally. rewrite <- list_fmap_compose. done. Qed.

Lemma tally_snd l : (tally l).*2 = num_records <$> l.
Proof. unfold tally. rewrite <- list_fmap_compose. done. Qed.

Lemma line_code_nonempty line c : line_code line = Some c → c ≠ EmptyString.
Proof.
  unfold line_code, CString.strtok. intros H%list_elem_of_lookup_2.
  apply list_elem_of_In, List.filter_In in H as [_ H]. by destruct c.
Qed.

Lemma step_code_fits l ns line l' ns' :
  step (l, ns) line = Some (l', ns') →
  ∃ c, line_code line = Some c ∧
       (c ∈ code <$> l ∨ ((String.length c ≤ 2)%nat ∧ (length l < NUM_STATES)%nat)).
Proof.
  unfold step. simpl. intros H.
  destruct (line_record line) as [r|] eqn:Hr; simpl in H; [|done].
  apply line_record_code in Hr. exists (state_code r). split; [done|].
  revert H. unfold find_or_append.
  destruct (list_find _ l) as [[i b]|] eqn:Hfind; simpl.
  - intros _. left. apply list_find_Some in Hfind as (Hb & Hc & _).
    apply list_elem_of_fmap. exists b. split; [done|].
    by eapply list_elem_of_lookup_2.
  - destruct (decide (length l < NUM_STATES)%nat) as [Hlt|]; simpl; [|done].
    unfold new_climate_info.
    destruct (Nat.leb_spec (String.length (state_code r)) 2); simpl; [|done].
    intros _. by right.
Qed.

Lemma step_inv seen l ns line l' ns' :
  step (l, ns) line = Some (l', ns') → run_inv seen l →
  ∃ c, line_code line = Some c ∧ run_inv (seen ++ [c]) l'.
Proof.
  intros H (Ht & Hlen & Hfits).
  destruct (step_code_fits _ _ _ _ _ H) as (c & Hc & Hfit).
  destruct (step_tally _ _ _ _ _ H) as (c' & Hc' & Htally & Hlen').
  assert (c' = c) as -> by congruence.
  exists c. split; [done|]. split_and!.
  - rewrite Htally. by apply bump_tally_of.
  - by apply Hlen'.
  - assert (code <$> l' = add_code (code <$> l) c) as Hcodes
      by (by rewrite <- !tally_fst, Htally, bump_fst).
    assert (code_fits c) as Hfitc.
    { destruct Hfit as [Hin|[Hle _]].
      - apply list_elem_of_fmap in Hin as (b & -> & Hb).
        rewrite Forall_forall in Hfits. by apply Hfits.
      - split; [|done]. apply line_code_nonempty in Hc. destruct c; simpl; [done|lia]. }
    apply (Forall_fmap code code_fits). rewrite Hcodes.
    apply Forall_forall. intros x [Hx| ->]%add_code_elem_of; [|done].
    apply list_elem_of_fmap in Hx as (b & -> & Hb).
    rewrite Forall_forall in Hfits. by apply Hfits.
Qed.

Lemma steps_inv lines seen l ns l' ns' :
  steps lines (l, ns) = Some (l', ns') → run_inv seen l →
  run_inv (seen ++ omap line_code lines) l' ∧
  length (omap line_code lines) = length lines.
Proof.
  revert seen l ns. induction lines as [|line lines IH]; intros seen l ns H Hinv.
  - injection H as <- <-. simpl. by rewrite app_nil_r.
  - simpl in H.
    destruct (step (l, ns) line) as [[l1 ns1]|] eqn:H1; simpl in H; [|done].
    destruct (step_inv _ _ _ _ _ _ H1 Hinv) as (c & Hc & Hinv1).
    assert (omap line_code (line :: lines) = c :: omap line_code lines) as ->
      by (simpl; by rewrite Hc).
    destruct (IH _ _ _ H Hinv1) as [IH1 IH2].
    rewrite <- app_assoc in IH1. simpl in IH1. split; [done|]. simpl. by rewrite IH2.
Qed.

Lemma input_lines_cons file files :
  input_lines (file :: files)
  = match file with
    | Some content => CString.fgets line_sz content
    | None => []
    end ++ input_lines files.
Proof. done. Qed.

Lemma input_codes_cons file files :
  input_codes (file :: files)
  = omap line_code match file with
                   | Some content => CString.fgets line_sz content
                   | None => []
                   end ++ input_codes files.
Proof. unfold input_codes. by rewrite input_lines_cons, omap_app. Qed.

Lemma runs_inv files seen l l' :
  runs files l = Some l' → run_inv seen l →
  run_inv (seen ++ input_codes files) l' ∧
  length (input_codes files) = length (input_lines files).
Proof.
  revert seen l. induction files as [|[file|] files IH]; intros seen l H Hinv.
  - injection H as <-. unfold input_codes, input_lines. simpl. by rewrite app_nil_r.
  - simpl in H.
    destruct (steps _ (l, None)) as [[l1 ns1]|] eqn:H1; simpl in H; [|done].
    destruct (steps_inv _ _ _ _ _ _ H1 Hinv) as [Hinv1 Hlen1].
    destruct (IH _ _ H Hinv1) as [IH1 IH2].
    rewrite input_codes_cons, input_lines_cons, !length_app, app_assoc.
    split; [done|]. by rewrite Hlen1, IH2.
  - simpl in H. destruct (IH _ _ H Hinv) as [IH1 IH2].
    rewrite input_codes_cons, input_lines_cons. done.
Qed.

Lemma run_inv_nil : run_inv [] [].
Proof. split_and!; [apply tally_of_nil|simpl; lia|constructor]. Qed.

(** The table that [main] reports. *)
Lemma main_Report files states :
  main files = Report states →
  ∃ l, states = slots l ∧ run_inv (input_codes files) l ∧
       length (input_codes files) = length (input_lines files).
Proof.
  unfold main. destruct files as [|file files]; [done|].
  rewrite empty_states_slots, main_loop_slots.
  destruct (runs _ []) as [l|] eqn:Hruns; simpl; [|done].
  intros [= <-]. exists l. split; [done|].
  by apply (runs_inv _ [] []), run_inv_nil.
Qed.

Lemma slots_lookup_Some l i a : slots l !! i = Some (Some a) ↔ l !! i = Some a.
Proof.
  pose proof (deref_slots l i) as H. unfold deref in H.
  split.
  - intros Hi. by rewrite Hi in H.
  - intros Hi. rewrite Hi in H. destruct (slots l !! i) as [[b|]|]; simpl in H; congruence.
Qed.

End RunInvariant.

(** ** The report *)

Section Report.
Context {P : Platform}.
Implicit Types (l : list climate_info) (states : table) (a : climate_info).
Implicit Types (t : list (string * Z)) (cs seen : list string) (c : string).

Lemma print_codes_NULL k : print_codes (replicate k (@None climate_info)) k = Some EmptyString.
Proof. induction k; simpl; done. Qed.

Lemma print_codes_prefix l k :
  print_codes ((Some <$> l) ++ replicate k None) (length l + k)
  = Some (spaced (code <$> l)).
Proof.
  induction l as [|a l IH].
  - apply print_codes_NULL.
  - rewrite !fmap_cons. cbn [app length Nat.add print_codes]. by rewrite IH.
Qed.

Lemma print_codes_slots l :
  (length l ≤ NUM_STATES)%nat →
  print_codes (slots l) NUM_STATES = Some (spaced (code <$> l)).
Proof.
  intros Hlen. rewrite <- (print_codes_prefix l (NUM_STATES - length l)).
  unfold slots. f_equal. lia.
Qed.

Lemma occurrences_omap c (lines : list string) :
  occurrences c (omap line_code lines)
  = Z.of_nat (length (filter (λ line, line_code line = Some c) lines)).
Proof.
  unfold occurrences. f_equal.
  induction lines as [|line lines IH]; [done|].
  change (omap line_code (line :: lines))
    with (match line_code line with
          | Some x => x :: omap line_code lines
          | None => omap line_code lines
          end).
  rewrite (filter_cons (λ line, line_code line = Some c)).
  destruct (line_code line) as [x|] eqn:Hx.
  - rewrite filter_cons.
    destruct (decide (x = c)) as [->|Hne].
    + rewrite decide_True by done. simpl. by rewrite IH.
    + rewrite decide_False by congruence. done.
  - rewrite decide_False by done. done.
Qed.

Lemma occurrences_le c cs : occurrences c cs ≤ Z.of_nat (length cs).
Proof. unfold occurrences. pose proof (length_filter (λ x, x = c) cs). lia. Qed.

Lemma Zsum_app (k l : list Z) : Zsum (k ++ l) = Zsum k + Zsum l.
Proof. unfold Zsum. induction k as [|x k IH]; simpl; lia. Qed.

Lemma Zsum_indicator c cs :
  NoDup cs →
  Zsum ((λ x, if decide (c = x) then 1 else 0) <$> cs) = if decide (c ∈ cs) then 1 else 0.
Proof.
  induction 1 as [|x cs Hx Hnd IH]; [done|].
  rewrite fmap_cons, Zsum_cons, IH. destruct (decide (c = x)) as [->|Hne].
  - rewrite (decide_True (P:=x ∈ x :: cs)) by apply list_elem_of_here.
    by rewrite decide_False.
  - destruct (decide (c ∈ cs)).
    + rewrite decide_True by (by apply list_elem_of_further). done.
    + rewrite decide_False by (rewrite elem_of_cons; tauto). done.
Qed.

Lemma Zsum_plus {A} (f g : A → Z) (xs : list A) :
  Zsum ((λ x, f x + g x) <$> xs) = Zsum (f <$> xs) + Zsum (g <$> xs).
Proof.
  induction xs as [|x xs IH]; [done|]. rewrite !fmap_cons, !Zsum_cons. lia.
Qed.

(** Every element of a list is counted once under its first occurrence. *)
Lemma occurrences_sum cs :
  Zsum ((λ c, occurrences c cs) <$> first_seen cs) = Z.of_nat (length cs).
Proof.
  induction cs as [|x cs IH] using rev_ind; [done|].
  rewrite first_seen_snoc, length_app. simpl.
  assert (∀ xs, Zsum ((λ c, occurrences c (cs ++ [x])) <$> xs)
                = Zsum ((λ c, occurrences c cs) <$> xs)
                  + Zsum ((λ c, if decide (x = c) then 1 else 0) <$> xs)) as Hsplit.
  { intros xs. rewrite <- Zsum_plus. f_equal. apply list_fmap_ext.
    intros _ c _. apply occurrences_snoc. }
  unfold add_code. destruct (decide (x ∈ first_seen cs)) as [Hin|Hout].
  - rewrite Hsplit, IH, Zsum_indicator by apply first_seen_NoDup.
    rewrite decide_True by done. lia.
  - rewrite fmap_app, Zsum_app, Hsplit, IH, Zsum_indicator by apply first_seen_NoDup.
    rewrite decide_False by done. simpl.
    rewrite occurrences_snoc, decide_True by done.
    rewrite occurrences_not_elem_of by (by rewrite <- first_seen_elem_of).
    unfold Zsum. simpl. lia.
Qed.

Lemma tally_of_exact seen t :
  tally_of seen t → Z.of_nat (length seen) < ULONG_MODULUS →
  t.*2 = (λ c, occurrences c seen) <$> first_seen seen.
Proof.
  intros [Hkeys Hn] Hlt. rewrite <- Hkeys, <- list_fmap_compose.
  apply list_eq. intros i. rewrite !list_lookup_fmap.
  destruct (t !! i) as [[c n]|] eqn:Hi; simpl; [|done].
  rewrite (Hn _ _ _ Hi). f_equal. apply Z.mod_small.
  pose proof (occurrences_nonneg c seen). pose proof (occurrences_le c seen). lia.
Qed.

End Report.

Section ReportTheorems.
Context {P : Platform}.
Implicit Types (l : list climate_info) (states : table) (a : climate_info).

(** X3. The array that [main] hands to [print_report] holds its structs in
    its first slots, followed by NULL slots only; no two structs have the
    same state code, and every code has one or two characters. *)
Theorem report_table_well_formed (files : list (option string)) states :
  main files = Report states →
  ∃ l, states = slots l ∧ (length l ≤ NUM_STATES)%nat ∧
       NoDup (code <$> l) ∧ Forall (λ a, code_fits (code a)) l.
Proof.
  intros (l & -> & (Ht & Hlen & Hfits) & _)%main_Report.
  exists l. split_and!; [done..| |done].
  destruct Ht as [Hkeys _]. rewrite tally_fst in Hkeys. rewrite Hkeys.
  apply first_seen_NoDup.
Qed.

(** X4. The structs stand in the array in the order in which their codes
    first appear in the input, and the first lines of the report list the
    codes in that order. *)
Theorem states_found_in_order_of_appearance (files : list (option string)) states :
  main files = Report states →
  codes states = first_seen (input_codes files) ∧
  print_report_states_found states NUM_STATES
  = Some ("States found:" +:+ String CString.NEWLINE EmptyString
          +:+ spaced (first_seen (input_codes files))
          +:+ String CString.NEWLINE EmptyString).
Proof.
  intros (l & -> & (Ht & Hlen & Hfits) & _)%main_Report.
  destruct Ht as [Hkeys _]. rewrite tally_fst in Hkeys.
  unfold codes, print_report_states_found.
  rewrite omap_slots, print_codes_slots, Hkeys by done. done.
Qed.

(** X5. [num_records] of a struct is the number of buffers read, over all
    files, whose first token is the code of the struct, modulo 2^64. *)
Theorem num_records_counts_lines (files : list (option string)) states a :
  main files = Report states →
  Some a ∈ states →
  num_records a = lines_of (code a) files mod ULONG_MODULUS.
Proof.
  intros (l & -> & (Ht & _) & _)%main_Report Ha.
  apply list_elem_of_lookup in Ha as [i Hi]. apply slots_lookup_Some in Hi.
  destruct Ht as [_ Hn]. unfold lines_of. rewrite <- occurrences_omap.
  apply (Hn i). unfold tally. by rewrite list_lookup_fmap, Hi.
Qed.

(** X6. When fewer than 2^64 buffers are read, every struct of the report
    has counted at least one record, so that the averages of [print_report]
    do not divide by zero, and the record counts of the structs add up to
    the number of buffers read. *)
Theorem every_line_counted_once (files : list (option string)) states :
  main files = Report states →
  Z.of_nat (length (input_lines files)) < ULONG_MODULUS →
  (∀ a, Some a ∈ states → 1 ≤ num_records a) ∧
  Zsum (num_records <$> omap id states) = Z.of_nat (length (input_lines files)).
Proof.
  intros (l & -> & (Ht & _) & Hlen)%main_Report Hlt.
  rewrite <- Hlen in Hlt. rewrite omap_slots.
  pose proof (tally_of_exact _ _ Ht Hlt) as Hexact. rewrite tally_snd in Hexact.
  split.
  - intros a Ha. apply list_elem_of_lookup in Ha as [i Hi].
    apply slots_lookup_Some in Hi.
    destruct Ht as [Hkeys Hn].
    rewrite (Hn i (code a) (num_records a))
      by (unfold tally; by rewrite list_lookup_fmap, Hi).
    assert (code a ∈ input_codes files) as Hin.
    { apply first_seen_elem_of. rewrite <- Hkeys, tally_fst.
      apply list_elem_of_fmap. exists a. split; [done|].
      by eapply list_elem_of_lookup_2. }
    pose proof (occurrences_elem_of _ _ Hin).
    pose proof (occurrences_le (code a) (input_codes files)).
    rewrite Z.mod_small by lia. done.
  - rewrite Hexact, occurrences_sum. by rewrite Hlen.
Qed.

End ReportTheorems.

Lemma sample_main : @main Exact.platform sample_files = Report sample_report.
Proof. reflexivity. Qed.

Lemma report_table_well_formed_witness :
  @main Exact.platform sample_files = Report sample_report ∧
  ∃ l, sample_report = slots l ∧ (length l ≤ NUM_STATES)%nat ∧
       NoDup (code <$> l) ∧ Forall (λ a, code_fits (code a)) l.
Proof.
  refine (conj sample_main _).
  exact (report_table_well_formed sample_files sample_report sample_main).
Defined.

Lemma states_found_in_order_of_appearance_witness :
  @main Exact.platform sample_files = Report sample_report ∧
  codes sample_report = first_seen (@input_codes sample_files) ∧
  print_report_states_found sample_report NUM_STATES
  = Some ("States found:" +:+ String CString.NEWLINE EmptyString
          +:+ spaced (first_seen (input_codes sample_files))
          +:+ String CString.NEWLINE EmptyString).
Proof.
  refine (conj sample_main _).
  exact (states_found_in_order_of_appearance sample_files sample_report sample_main).
Defined.

Lemma num_records_counts_lines_witness :
  @main Exact.platform sample_files = Report sample_report ∧
  Some sample_ca ∈ sample_report ∧
  num_records sample_ca = lines_of (code sample_ca) sample_files mod ULONG_MODULUS.
Proof.
  assert (Some sample_ca ∈ sample_report) as H by apply list_elem_of_here.
  refine (conj sample_main (conj H _)).
  exact (num_records_counts_lines sample_files sample_report sample_ca sample_main H).
Defined.

Lemma every_line_counted_once_witness :
  @main Exact.platform sample_files = Report sample_report ∧
  Z.of_nat (length (input_lines sample_files)) < ULONG_MODULUS ∧
  (∀ a, Some a ∈ sample_report → 1 ≤ num_records a) ∧
  Zsum (num_records <$> omap id sample_report)
  = Z.of_nat (length (input_lines sample_files)).
Proof.
  assert (Z.of_nat (length (input_lines sample_files)) < ULONG_MODULUS) as H
    by (vm_compute; reflexivity).
  refine (conj sample_main (conj H _)).
  exact (every_line_counted_once sample_files sample_report sample_main H).
Defined.

(** ** The scan of [findStateIndex] and the slot it selects *)

Section Scan.
Context {P : Platform}.
Implicit Types (l : list climate_info) (states : table) (a : climate_info).
Implicit Types (c : string).

Lemma list_find_first l c j a :
  l !! j = Some a → code a = c →
  (∀ k b, (k < j)%nat → l !! k = Some b → code b ≠ c) →
  list_find (λ a, code a = c) l = Some (j, a).
Proof.
  intros Hj Hc Hbefore. apply list_find_Some. split_and!; [done..|].
  intros k b Hk Hlt. by apply (Hbefore k).
Qed.

Lemma list_find_absent l c :
  Forall (λ a, code a ≠ c) l → list_find (λ a, code a = c) l = None.
Proof. intros H. by apply list_find_None. Qed.

(** X1. On an array whose structs fill a prefix, [findStateIndex] returns
    the index of the first struct with the code; when there is none and
    [n] < 50 structs are in the array, it returns -[n], the index of the
    first NULL slot negated, with -50 standing for slot 0; when the array
    is full, the scan reads past its end. *)
Theorem findStateIndex_on_prefix l c :
  (∀ j a, l !! j = Some a → code a = c →
          (∀ k b, (k < j)%nat → l !! k = Some b → code b ≠ c) →
          findStateIndex (slots l) c = Some (Z.of_nat j)) ∧
  (Forall (λ a, code a ≠ c) l → (length l < NUM_STATES)%nat →
   findStateIndex (slots l) c
   = Some (if Z.of_nat (length l) =? 0 then -50 else - Z.of_nat (length l))) ∧
  (Forall (λ a, code a ≠ c) l → (NUM_STATES ≤ length l)%nat →
   findStateIndex (slots l) c = None).
Proof.
  split_and!.
  - intros j a Hj Hc Hbefore. rewrite findStateIndex_slots.
    by rewrite (list_find_first _ _ _ _ Hj Hc Hbefore).
  - intros Habs Hlt. rewrite findStateIndex_slots, list_find_absent by done.
    by rewrite decide_True.
  - intros Habs Hge. rewrite findStateIndex_slots, list_find_absent by done.
    rewrite decide_False by lia. done.
Qed.

(** X2. The slot that lines 171-200 select for a state code, found or
    created, is the slot that [findStateIndex] returns for the code
    afterwards: a second look-up creates nothing. *)
Theorem created_state_is_found l ns c states' ns' (i : Z) :
  get_or_create (slots l) ns c = Some (states', ns', i) →
  findStateIndex states' c = Some i ∧
  get_or_create states' ns' c = Some (states', ns', i).
Proof.
  rewrite get_or_create_slots.
  destruct (find_or_append l ns c) as [[[l' ns1] j]|] eqn:Hfind; simpl; [|done].
  intros [= <- <- <-].
  assert (∃ b, list_find (λ a, code a = c) l' = Some (j, b)) as [b Hb].
  { revert Hfind. unfold find_or_append.
    destruct (list_find _ l) as [[k b]|] eqn:Hl.
    - intros [= <- <- <-]. by exists b.
    - destruct (decide _); [|done].
      destruct (new_climate_info c) as [fresh|] eqn:Hfresh; simpl; [|done].
      intros [= <- <- <-]. exists fresh.
      apply list_find_app_Some. right. split_and!; [done..|].
      rewrite Nat.sub_diag. simpl.
      unfold new_climate_info in Hfresh.
      destruct (String.length c <=? 2)%nat; [|done]. injection Hfresh as <-.
      simpl. by rewrite decide_True. }
  split.
  - by rewrite findStateIndex_slots, Hb.
  - rewrite get_or_create_slots. unfold find_or_append. by rewrite Hb.
Qed.

End Scan.

Lemma created_state_is_found_witness :
  @get_or_create Exact.platform (slots sample_slots) None "OR"
  = Some (slots sample_slots_or, Some 3%nat, 3) ∧
  findStateIndex (slots sample_slots_or) "OR" = Some 3 ∧
  get_or_create (slots sample_slots_or) (Some 3%nat) "OR"
  = Some (slots sample_slots_or, Some 3%nat, 3).
Proof.
  assert (@get_or_create Exact.platform (slots sample_slots) None "OR"
          = Some (slots sample_slots_or, Some 3%nat, 3)) as H by reflexivity.
  refine (conj H _).
  exact (created_state_is_found _ _ _ _ _ _ H).
Defined.

(** ** What a file does to the structs that were there before it *)

Section Earlier.
Context {P : Platform}.
Implicit Types (states : table) (a : climate_info).

Lemma set_num_records_same a : set_num_records (num_records a) a = a.
Proof. by destruct a. Qed.

(** One iteration: [new_state] points to a slot afterwards, the one it
    pointed to before or a slot that was NULL; the struct of any other
    slot changes in its record count at most. *)
Lemma analyze_line_others states ns line states' ns' :
  length states = NUM_STATES →
  analyze_line (states, ns) line = Some (states', ns') →
  ∃ p, ns' = Some p ∧ (ns = Some p ∨ states !! p = Some None) ∧
       ∀ q a, q ≠ p → states !! q = Some (Some a) →
              ∃ k, states' !! q = Some (Some (set_num_records k a)).
Proof.
  intros Hlen H.
  apply analyze_line_Some in H
    as (r & states1 & i & p & a0 & a1 & a' & Hr & Hg & Ha0 & -> & Ha1 & Hf & ->).
  exists p. split; [done|].
  apply get_or_create_inv in Hg
    as [Hpos [(-> & <- & b & Hb & Hc)|(fresh & idx & Hidx & Hneg & Hi & Hfresh & -> & [= ->])]].
  - split; [by left|]. intros q a Hq Ha.
    rewrite list_lookup_insert_ne by done.
    destruct (decide (q = Z.to_nat i)) as [->|Hne].
    + apply deref_Some in Ha0. rewrite Ha0 in Ha. injection Ha as ->.
      exists ((num_records a + 1) mod ULONG_MODULUS).
      apply list_lookup_insert_eq. by eapply lookup_lt_Some.
    + rewrite list_lookup_insert_ne by done.
      exists (num_records a). by rewrite set_num_records_same.
  - apply findStateIndex_absent in Hidx as [Hnull _]; [|done|rewrite Hlen; done].
    simpl in Hnull. rewrite <- Hi in Hnull.
    split; [by right|]. intros q a Hq Ha.
    rewrite !list_lookup_insert_ne by done.
    exists (num_records a). by rewrite set_num_records_same.
Qed.

Lemma analyze_line_kept states0 st line st' :
  length states0 = NUM_STATES →
  kept states0 st → analyze_line st line = Some st' → kept states0 st'.
Proof.
  destruct st as [states ns], st' as [states' ns'].
  intros Hlen0 (Hlen & Hold & Hns) H. simpl in *.
  pose proof (analyze_line_length _ _ _ _ _ H) as Hlen'.
  destruct (analyze_line_others _ _ _ _ _ Hlen H) as (p & -> & Hp & Hothers).
  assert (states0 !! p = Some None) as Hp0.
  { destruct Hp as [->|Hnull]; [by apply Hns|].
    destruct (states0 !! p) as [[a|]|] eqn:E; [|done|].
    - destruct (Hold _ _ E) as [k Hk]. congruence.
    - apply lookup_ge_None in E. apply lookup_lt_Some in Hnull. lia. }
  split_and!; simpl.
  - congruence.
  - intros q a Hq. destruct (Hold _ _ Hq) as [k Hk].
    assert (q ≠ p) as Hne by congruence.
    destruct (Hothers _ _ Hne Hk) as [k' Hk']. by exists k'.
  - by intros p' [= <-].
Qed.

Lemma analyze_lines_kept states0 lines st st' :
  length states0 = NUM_STATES →
  kept states0 st → analyze_lines lines st = Some st' → kept states0 st'.
Proof.
  intros Hlen0. revert st. induction lines as [|line lines IH]; intros st Hst H.
  - simpl in H. by injection H as <-.
  - simpl in H. destruct (analyze_line st line) as [st1|] eqn:H1; simpl in H; [|done].
    eapply IH; [|done]. by eapply analyze_line_kept.
Qed.

(** X7. Whatever a file holds, [analyze_file] leaves the sums, counters,
    extrema and dates of every struct that was in the array before the
    file as they were: of such a struct only the record count can
    change. *)
Theorem earlier_states_keep_measurements (file : string) states (n : nat) states'
    (q : nat) a :
  length states = NUM_STATES →
  analyze_file file states n = Some states' →
  states !! q = Some (Some a) →
  ∃ k, states' !! q = Some (Some (set_num_records k a)).
Proof.
  intros Hlen H Hq. unfold analyze_file in H.
  destruct (analyze_lines _ _) as [[states1 ns1]|] eqn:Hrun; simpl in H; [|done].
  injection H as <-.
  assert (kept states (states, None)) as Hkept.
  { split_and!; simpl; [done| |done].
    intros q' a' Hq'. exists (num_records a'). by rewrite set_num_records_same. }
  destruct (analyze_lines_kept _ _ _ _ Hlen Hkept Hrun) as (_ & Hold & _).
  by apply Hold.
Qed.

End Earlier.

(** ** A file of records of one state *)

Section OneState.
Context {P : Platform}.
Implicit Types (l : list climate_info) (states : table) (a : climate_info).
Implicit Types (c : string) (r : record).

Lemma add_record_code a r a' : add_record a r = Some a' → code a' = code a.
Proof. intros (? & _)%fold_record_fields. done. Qed.

Lemma update_last l a f :
  update (l ++ [a]) (length l) f = (λ a', l ++ [a']) <$> f a.
Proof.
  rewrite (update_lookup _ _ _ a) by (by rewrite lookup_app_r, Nat.sub_diag).
  destruct (f a) as [a'|]; simpl; [|done].
  by rewrite insert_app_r_alt, Nat.sub_diag.
Qed.

Lemma step_last l a line r :
  line_record line = Some r → code a = state_code r →
  state_code r ∉ code <$> l →
  step (l ++ [a], Some (length l)) line
  = (λ a', (l ++ [a'], Some (length l))) <$> add_record a r.
Proof.
  intros Hr Hc Hnew. unfold step. simpl. rewrite Hr. simpl.
  unfold find_or_append.
  assert (list_find (λ a, code a = state_code r) (l ++ [a]) = Some (length l, a)) as ->.
  { apply list_find_app_Some. right. split_and!; [done| |].
    - apply list_find_None, Forall_forall. intros b Hb Hcb.
      apply Hnew, list_elem_of_fmap. by exists b.
    - rewrite Nat.sub_diag. simpl. by rewrite decide_True. }
  simpl. rewrite update_last. simpl. rewrite update_last.
  unfold add_record. by destruct (fold_record r (count_record a)).
Qed.

Lemma step_first l ns line r :
  line_record line = Some r →
  state_code r ∉ code <$> l → (length l < NUM_STATES)%nat →
  step (l, ns) line
  = fresh ← new_climate_info (state_code r);
    (λ a', (l ++ [a'], Some (length l))) <$> add_record fresh r.
Proof.
  intros Hr Hnew Hlt. unfold step. simpl. rewrite Hr. simpl.
  unfold find_or_append.
  assert (list_find (λ a, code a = state_code r) l = None) as ->.
  { apply list_find_None, Forall_forall. intros b Hb Hcb.
    apply Hnew, list_elem_of_fmap. by exists b. }
  rewrite decide_True by done.
  destruct (new_climate_info (state_code r)) as [fresh|]; simpl; [|done].
  rewrite update_last. simpl. rewrite update_last.
  unfold add_record. by destruct (fold_record r (count_record fresh)).
Qed.

Lemma steps_last c lines rs l a :
  Forall2 (recorded c) lines rs → code a = c → c ∉ code <$> l →
  steps lines (l ++ [a], Some (length l))
  = (λ a', (l ++ [a'], Some (length l))) <$> add_records a rs.
Proof.
  intros Hall. revert a. induction Hall as [|line r lines rs [Hr Hcr] Hall IH];
    intros a Hc Hnew; simpl; [done|].
  rewrite (step_last _ _ _ r) by congruence.
  destruct (add_record a r) as [a1|] eqn:Ha1; simpl; [|done].
  apply IH; [|done]. apply add_record_code in Ha1. congruence.
Qed.

(** X8. A file whose lines are all records of one state [c] that is not in
    the array yet: [analyze_file] appends one struct after those in the
    array, and that struct is the fresh struct of lines 176-188 with the
    records of the file folded into it one after the other. The structs
    that were in the array are untouched. *)
Theorem one_state_file (file : string) c (rs : list record) l (n : nat) :
  Forall2 (recorded c) (CString.fgets line_sz file) rs →
  rs ≠ [] →
  c ∉ code <$> l → (length l < NUM_STATES)%nat →
  analyze_file file (slots l) n
  = fresh ← new_climate_info c;
    a ← add_records fresh rs;
    Some (slots (l ++ [a])).
Proof.
  intros Hall Hrs Hnew Hlt. unfold analyze_file. rewrite analyze_lines_slots.
  destruct Hall as [|line r lines rs [Hr Hcr] Hall]; [done|]. subst c.
  simpl. rewrite (step_first _ _ _ r) by done.
  destruct (new_climate_info (state_code r)) as [fresh|] eqn:Hfresh; simpl; [|done].
  destruct (add_record fresh r) as [a1|] eqn:Ha1; simpl; [|done].
  rewrite (steps_last (state_code r) _ rs); [|done| |done].
  - by destruct (add_records a1 rs).
  - apply add_record_code in Ha1. rewrite Ha1.
    unfold new_climate_info in Hfresh.
    destruct (String.length _ <=? 2)%nat; [|done]. by injection Hfresh as <-.
Qed.

End OneState.

(** ** Two files in one *)

Section Joined.
Context {P : Platform}.
Implicit Types (states : table) (a : climate_info).

Lemma fgets_from_app line_sz (f1 f2 cur : string) (room : nat) :
  CString.fgets_from line_sz
    ((f1 +:+ String CString.NEWLINE EmptyString) +:+ f2) cur room
  = CString.fgets_from line_sz (f1 +:+ String CString.NEWLINE EmptyString) cur room
    ++ CString.fgets line_sz f2.
Proof.
  unfold CString.fgets.
  revert cur room. induction f1 as [|ch f1 IH]; intros cur room.
  - simpl. done.
  - simpl. destruct (Ascii.eqb ch CString.NEWLINE || (room =? 1)%nat).
    + rewrite IH. done.
    + apply IH.
Qed.

Lemma fgets_app line_sz (f1 f2 : string) :
  CString.fgets line_sz ((f1 +:+ String CString.NEWLINE EmptyString) +:+ f2)
  = CString.fgets line_sz (f1 +:+ String CString.NEWLINE EmptyString)
    ++ CString.fgets line_sz f2.
Proof. apply fgets_from_app. Qed.

Lemma analyze_lines_app lines1 lines2 (st : loop_state) :
  analyze_lines (lines1 ++ lines2) st
  = analyze_lines lines1 st ≫= analyze_lines lines2.
Proof.
  revert st. induction lines1 as [|line lines1 IH]; intros st; simpl; [done|].
  destruct (analyze_line st line) as [st1|]; simpl; [|done]. apply IH.
Qed.

(** An iteration that succeeds with [new_state] uninitialized creates a
    struct, and does the same whatever [new_state] is. *)
Lemma analyze_line_uninitialized states line st' ns :
  analyze_line (states, None) line = Some st' →
  analyze_line (states, ns) line = Some st'.
Proof.
  rewrite !analyze_line_eq.
  destruct (line_record line) as [r|]; simpl; [|done].
  unfold get_or_create.
  destruct (findStateIndex states (state_code r)) as [i|]; simpl; [|done].
  destruct (i <? 0); [done|]. simpl.
  destruct (store states (Z.to_nat i) _) as [states2|]; simpl; done.
Qed.

Lemma analyze_lines_uninitialized lines states states' ns' ns :
  analyze_lines lines (states, None) = Some (states', ns') →
  ∃ ns'', analyze_lines lines (states, ns) = Some (states', ns'').
Proof.
  destruct lines as [|line lines]; simpl.
  - intros [= <- <-]. by exists ns.
  - destruct (analyze_line (states, None) line) as [st1|] eqn:H1; simpl; [|done].
    rewrite (analyze_line_uninitialized _ _ _ ns H1). simpl.
    intros H. by exists ns'.
Qed.

(** X10. When one file ends with a newline and is analyzed without
    undefined behaviour, and a second file is then analyzed without
    undefined behaviour, one file that holds the characters of the first
    followed by those of the second gives the same array. *)
Theorem joined_files_give_same_table (f1 f2 : string) states (n : nat) states1 states2 :
  analyze_file (f1 +:+ String CString.NEWLINE EmptyString) states n = Some states1 →
  analyze_file f2 states1 n = Some states2 →
  analyze_file ((f1 +:+ String CString.NEWLINE EmptyString) +:+ f2) states n
  = Some states2.
Proof.
  unfold analyze_file. intros H1 H2.
  rewrite fgets_app, analyze_lines_app.
  destruct (analyze_lines (CString.fgets _ (f1 +:+ _)) _)
    as [[s1 ns1]|] eqn:E1; simpl in H1; [|done].
  injection H1 as ->.
  destruct (analyze_lines (CString.fgets _ f2) _)
    as [[s2 ns2]|] eqn:E2; simpl in H2; [|done].
  injection H2 as ->.
  destruct (analyze_lines_uninitialized _ _ _ _ ns1 E2) as [ns'' E3].
  simpl. by rewrite E3.
Qed.

End Joined.

(** ** Fields that are not read, and fields that are empty *)

Section Fields.
Context {P : Platform}.
Implicit Types (states : table) (a : climate_info).

(** X11. An iteration reads the tokens 0, 1, 3, 4, 5, 6 and 8 of its line
    only: the geolocation, the pressure and whatever follows the
    temperature have no influence on the array. *)
Theorem unused_fields_ignored (st : loop_state) (line1 line2 : string) :
  (∀ k : nat, k ∈ [0; 1; 3; 4; 5; 6; 8]%nat →
     CString.strtok line1 CString.TAB !! k = CString.strtok line2 CString.TAB !! k) →
  analyze_line st line1 = analyze_line st line2.
Proof.
  intros H. destruct st as [states ns]. rewrite !analyze_line_eq.
  assert (line_record line1 = line_record line2) as ->; [|done].
  unfold line_record.
  rewrite (H 0%nat), (H 1%nat), (H 3%nat), (H 4%nat), (H 5%nat), (H 6%nat), (H 8%nat)
    by (repeat first [apply list_elem_of_here | apply list_elem_of_further]).
  done.
Qed.

Lemma filter_nonempty_lt (fs : list string) :
  EmptyString ∈ fs → (length (List.filter CString.nonempty fs) < length fs)%nat.
Proof.
  induction fs as [|f fs IH]; intros Hin.
  - by apply elem_of_nil in Hin.
  - apply elem_of_cons in Hin as [<-|Hin]; simpl.
    + pose proof (List.filter_length_le CString.nonempty fs). lia.
    + specialize (IH Hin). destruct (CString.nonempty f); simpl; lia.
Qed.

Lemma analyze_lines_None lines line (st : loop_state) :
  line ∈ lines → (∀ st', analyze_line st' line = None) →
  analyze_lines lines st = None.
Proof.
  intros Hin Hline. revert st. induction lines as [|x lines IH]; intros st.
  - by apply elem_of_nil in Hin.
  - simpl. apply elem_of_cons in Hin as [<-|Hin].
    + by rewrite Hline.
    + destruct (analyze_line st x); simpl; [by apply IH|done].
Qed.

(** X12. [strtok] skips empty fields. When a buffer read from the file has
    at most nine tab-separated fields and one of them is empty, it has
    fewer than nine tokens, [atol] or [atof] is called on NULL, and the
    run of the file is undefined. *)
Theorem empty_field_stops_run (file line : string) states (n : nat) :
  line ∈ CString.fgets line_sz file →
  (length (CString.fields CString.TAB (CString.cstr line)) ≤ 9)%nat →
  EmptyString ∈ CString.fields CString.TAB (CString.cstr line) →
  analyze_file file states n = None.
Proof.
  intros Hin Hlen Hempty. unfold analyze_file.
  rewrite (analyze_lines_None _ line); [done..|].
  intros [states' ns']. rewrite analyze_line_eq, line_record_short; [done|].
  unfold CString.strtok. apply filter_nonempty_lt in Hempty. lia.
Qed.

End Fields.

(** ** A first record outside the initial values of the extrema *)

Section Sentinels.
Context {P : Platform}.
Implicit Types (states : table) (a : climate_info).

(** X13. The extrema of a new struct start at -1000 and 1000 and its dates
    are not initialized. When the first record of a state is not below
    1000, the minimum stays 1000 and its date stays indeterminate; when
    it is not above -1000, the maximum stays -1000 and its date stays
    indeterminate. [print_report] then passes that date to [ctime]. *)
Theorem first_record_outside_sentinels states ns line r states' ns' :
  length states = NUM_STATES →
  line_record line = Some r →
  absent (state_code r) states →
  analyze_line (states, ns) line = Some (states', ns') →
  ∃ p a,
    ns' = Some p ∧ states' !! p = Some (Some a) ∧ code a = state_code r ∧
    (ld_lt (temperature_val r) (ldouble_of_double (double_of_int 1000)) = false →
     min_temperature a = double_of_int 1000 ∧ min_temp_date a = None) ∧
    (ld_lt (ldouble_of_double (double_of_int (-1000))) (temperature_val r) = false →
     max_temperature a = double_of_int (-1000) ∧ max_temp_date a = None).
Proof.
  intros Hlen Hr Habs H.
  apply analyze_line_Some in H
    as (r' & states1 & i & p & a0 & a & a' & Hr' & Hg & Ha0 & -> & Ha & Hf & ->).
  rewrite Hr in Hr'. injection Hr' as <-.
  apply get_or_create_inv in Hg
    as [_ [(_ & _ & b & Hb & Hc)|(fresh & idx & Hidx & Hneg & Hi & Hfresh & -> & [= ->])]].
  { by apply Habs in Hb. }
  apply findStateIndex_absent in Hidx as [Hnull _]; [|done|rewrite Hlen; done].
  simpl in Hnull. rewrite <- Hi in Hnull.
  apply lookup_lt_Some in Hnull as Hlt.
  rewrite deref_insert_eq in Ha0 by done. injection Ha0 as <-.
  rewrite deref_insert_eq in Ha by (by rewrite length_insert). injection Ha as <-.
  exists (Z.to_nat i), a'. split; [done|]. split.
  { apply list_lookup_insert_eq. by rewrite !length_insert. }
  unfold new_climate_info in Hfresh.
  destruct (String.length _ <=? 2)%nat; [|done]. injection Hfresh as <-.
  destruct (fold_record_fields _ _ _ Hf) as (-> & _).
  split; [done|].
  destruct (fold_record_extrema _ _ _ Hf) as [Hmax Hmin]. simpl in Hmax, Hmin.
  split.
  - intros Hge. destruct Hmin as [(-> & -> & _)|(_ & _ & Hlt')]; [done|congruence].
  - intros Hle. destruct Hmax as [(-> & -> & _)|(_ & _ & Hlt')]; [done|congruence].
Qed.

End Sentinels.

(** ** Files that do not open *)

Section Missing.
Context {P : Platform}.
Implicit Types (states : table).

(** X14. A file that [fopen] does not open is passed over: the loop of
    [main] ends with the array that the files that do open give, in their
    order. *)
Theorem missing_files_are_skipped (files : list (option string)) states :
  main_loop files states = main_loop (Some <$> omap id files) states.
Proof.
  revert states. induction files as [|[file|] files IH]; intros states; simpl.
  - done.
  - destruct (analyze_file file states NUM_STATES); simpl; [apply IH|done].
  - apply IH.
Qed.

End Missing.

(** ** The properties above on the sample inputs *)

Lemma findStateIndex_on_prefix_witness :
  findStateIndex (slots sample_slots) "TN" = Some 1 ∧
  findStateIndex (slots sample_slots) "OR" = Some (-3).
Proof.
  split.
  - refine (proj1 (findStateIndex_on_prefix sample_slots "TN") 1%nat _ _ _ _).
    + reflexivity.
    + reflexivity.
    + intros k b Hk Hb. destruct k as [|k]; [|lia].
      injection Hb as <-. discriminate.
  - refine (proj1 (proj2 (findStateIndex_on_prefix sample_slots "OR")) _ _).
    + repeat constructor; discriminate.
    + vm_compute. lia.
Defined.

Lemma earlier_states_keep_measurements_witness :
  length sample_first = NUM_STATES ∧
  @analyze_file Exact.platform sample_later_file sample_first NUM_STATES
    = Some sample_later ∧
  sample_first !! 0%nat = Some (Some sample_first_ca) ∧
  ∃ k, sample_later !! 0%nat = Some (Some (set_num_records k sample_first_ca)).
Proof.
  assert (length sample_first = NUM_STATES) as H1 by reflexivity.
  assert (@analyze_file Exact.platform sample_later_file sample_first NUM_STATES
          = Some sample_later) as H2 by reflexivity.
  assert (sample_first !! 0%nat = Some (Some sample_first_ca)) as H3 by reflexivity.
  refine (conj H1 (conj H2 (conj H3 _))).
  exact (earlier_states_keep_measurements _ _ _ _ _ _ H1 H2 H3).
Defined.

Lemma one_state_file_witness :
  Forall2 (@recorded Exact.platform "CA")
    (CString.fgets line_sz sample_flags_file) sample_flags_records ∧
  sample_flags_records ≠ [] ∧
  ("CA" ∉ code <$> sample_tail) ∧
  (length sample_tail < NUM_STATES)%nat ∧
  analyze_file sample_flags_file (slots sample_tail) NUM_STATES
  = fresh ← new_climate_info "CA";
    a ← add_records fresh sample_flags_records;
    Some (slots (sample_tail ++ [a])).
Proof.
  assert (Forall2 (@recorded Exact.platform "CA")
            (CString.fgets line_sz sample_flags_file) sample_flags_records) as H1.
  { assert (CString.fgets line_sz sample_flags_file
            = [Sample.obs "CA" "1428300000000" "1.0" "277.58716";
               Sample.obs "CA" "1428303600000" "0.0" "278.0";
               Sample.obs "CA" "1428307200000" "2.0" "279.5"]) as -> by reflexivity.
    repeat constructor; reflexivity. }
  assert (sample_flags_records ≠ []) as H2 by done.
  assert ("CA" ∉ code <$> sample_tail) as H3.
  { intros H. repeat (apply elem_of_cons in H as [H|H]; [discriminate H|]).
    by apply elem_of_nil in H. }
  assert (length sample_tail < NUM_STATES)%nat as H4 by (vm_compute; lia).
  refine (conj H1 (conj H2 (conj H3 (conj H4 _)))).
  exact (one_state_file sample_flags_file "CA" sample_flags_records sample_tail
           NUM_STATES H1 H2 H3 H4).
Defined.

Lemma joined_files_give_same_table_witness :
  @analyze_file Exact.platform
    (sample_ca1_text +:+ String CString.NEWLINE EmptyString) empty_states NUM_STATES
    = Some sample_step.1 ∧
  analyze_file Sample.tn1 sample_step.1 NUM_STATES = Some sample_joined ∧
  analyze_file
    ((sample_ca1_text +:+ String CString.NEWLINE EmptyString) +:+ Sample.tn1)
    empty_states NUM_STATES
  = Some sample_joined.
Proof.
  assert (@analyze_file Exact.platform
            (sample_ca1_text +:+ String CString.NEWLINE EmptyString)
            empty_states NUM_STATES = Some sample_step.1) as H1 by reflexivity.
  assert (@analyze_file Exact.platform Sample.tn1 sample_step.1 NUM_STATES
          = Some sample_joined) as H2 by reflexivity.
  refine (conj H1 (conj H2 _)).
  exact (joined_files_give_same_table _ _ _ _ _ _ H1 H2).
Defined.

Lemma unused_fields_ignored_witness :
  (∀ k : nat, k ∈ [0; 1; 3; 4; 5; 6; 8]%nat →
     CString.strtok sample_ca1_tenth CString.TAB !! k
     = CString.strtok sample_ca1_other CString.TAB !! k) ∧
  @analyze_line Exact.platform (empty_states, None) sample_ca1_tenth
  = analyze_line (empty_states, None) sample_ca1_other.
Proof.
  assert (∀ k : nat, k ∈ [0; 1; 3; 4; 5; 6; 8]%nat →
            CString.strtok sample_ca1_tenth CString.TAB !! k
            = CString.strtok sample_ca1_other CString.TAB !! k) as H.
  { intros k Hk.
    repeat (apply elem_of_cons in Hk as [->|Hk]; [vm_compute; reflexivity|]).
    apply elem_of_nil in Hk. destruct Hk. }
  refine (conj H _).
  exact (unused_fields_ignored (P:=Exact.platform) (empty_states, None)
           sample_ca1_tenth sample_ca1_other H).
Defined.

Lemma empty_field_stops_run_witness :
  sample_ca1_gap ∈ CString.fgets line_sz (Sample.ca1 +:+ sample_ca1_gap) ∧
  (length (CString.fields CString.TAB (CString.cstr sample_ca1_gap)) ≤ 9)%nat ∧
  EmptyString ∈ CString.fields CString.TAB (CString.cstr sample_ca1_gap) ∧
  @analyze_file Exact.platform (Sample.ca1 +:+ sample_ca1_gap) empty_states NUM_STATES
  = None.
Proof.
  assert (sample_ca1_gap ∈ CString.fgets line_sz (Sample.ca1 +:+ sample_ca1_gap)) as H1.
  { assert (CString.fgets line_sz (Sample.ca1 +:+ sample_ca1_gap)
            = [Sample.ca1; sample_ca1_gap]) as -> by reflexivity.
    apply list_elem_of_further, list_elem_of_here. }
  assert (length (CString.fields CString.TAB (CString.cstr sample_ca1_gap)) ≤ 9)%nat
    as H2 by (vm_compute; lia).
  assert (EmptyString ∈ CString.fields CString.TAB (CString.cstr sample_ca1_gap)) as H3.
  { assert (CString.fields CString.TAB (CString.cstr sample_ca1_gap)
            = ["CA"; "1428300000000"; "9prcjqk3yc80"; EmptyString; "0.0"; "100.0";
               "0.0"; "95644.0"; "277.58716" +:+ Sample.NL]) as -> by reflexivity.
    do 3 apply list_elem_of_further. apply list_elem_of_here. }
  refine (conj H1 (conj H2 (conj H3 _))).
  exact (empty_field_stops_run (P:=Exact.platform) _ _ empty_states NUM_STATES H1 H2 H3).
Defined.

Lemma first_record_outside_sentinels_witness :
  length (@empty_states Exact.platform) = NUM_STATES ∧
  @line_record Exact.platform sample_cold = Some sample_cold_record ∧
  absent (state_code sample_cold_record) (@empty_states Exact.platform) ∧
  @analyze_line Exact.platform (empty_states, None) sample_cold
    = Some (sample_cold_step.1, sample_cold_step.2) ∧
  ld_lt (ldouble_of_double (double_of_int (-1000))) (temperature_val sample_cold_record)
    = false ∧
  ∃ p a,
    sample_cold_step.2 = Some p ∧ sample_cold_step.1 !! p = Some (Some a) ∧
    code a = state_code sample_cold_record ∧
    (ld_lt (temperature_val sample_cold_record)
       (ldouble_of_double (double_of_int 1000)) = false →
     min_temperature a = double_of_int 1000 ∧ min_temp_date a = None) ∧
    (ld_lt (ldouble_of_double (double_of_int (-1000)))
       (temperature_val sample_cold_record) = false →
     max_temperature a = double_of_int (-1000) ∧ max_temp_date a = None).
Proof.
  assert (length (@empty_states Exact.platform) = NUM_STATES) as Hlen by reflexivity.
  assert (@line_record Exact.platform sample_cold = Some sample_cold_record) as Hr
    by reflexivity.
  assert (absent (state_code sample_cold_record) (@empty_states Exact.platform)) as Habs.
  { intros i a Hi. apply lookup_replicate in Hi as [? _]. done. }
  assert (@analyze_line Exact.platform (empty_states, None) sample_cold
          = Some (sample_cold_step.1, sample_cold_step.2)) as Hst by reflexivity.
  assert (ld_lt (ldouble_of_double (double_of_int (-1000)))
            (temperature_val sample_cold_record) = false) as Hcold
    by (vm_compute; reflexivity).
  refine (conj Hlen (conj Hr (conj Habs (conj Hst (conj Hcold _))))).
  exact (first_record_outside_sentinels _ _ _ _ _ _ Hlen Hr Habs Hst).
Defined.

(** ** Input without records *)

Section NoRecords.
Context {P : Platform}.
Implicit Types (states : table).

Lemma main_loop_no_lines (files : list (option string)) states :
  input_lines files = [] → main_loop files states = Some states.
Proof.
  revert states. induction files as [|[file|] files IH]; intros states H.
  - done.
  - rewrite input_lines_cons in H. apply app_eq_nil in H as [Hfile Hrest].
    simpl. unfold analyze_file. rewrite Hfile. simpl. by apply IH.
  - simpl. by apply IH.
Qed.

(** X15. When no file opens, or the files that open are empty, [main] still
    reports: the array of fifty NULL slots, of which [print_report] prints
    the heading and an empty line. *)
Theorem no_records_no_states (files : list (option string)) :
  files ≠ [] → input_lines files = [] →
  main files = Report empty_states ∧
  print_report_states_found empty_states NUM_STATES
  = Some ("States found:" +:+ String CString.NEWLINE EmptyString
          +:+ String CString.NEWLINE EmptyString).
Proof.
  intros Hfiles Hlines. split; [|done].
  unfold main. destruct files as [|file files]; [done|].
  by rewrite main_loop_no_lines.
Qed.

End NoRecords.

Lemma no_records_no_states_witness :
  [None; Some EmptyString] ≠ [] ∧
  input_lines [None; Some EmptyString] = [] ∧
  @main Exact.platform [None; Some EmptyString] = Report empty_states ∧
  @print_report_states_found Exact.platform empty_states NUM_STATES
  = Some ("States found:" +:+ String CString.NEWLINE EmptyString
          +:+ String CString.NEWLINE EmptyString).
Proof.
  assert ([None; Some EmptyString] ≠ @nil (option string)) as H1 by done.
  assert (input_lines [None; Some EmptyString] = []) as H2 by reflexivity.
  refine (conj H1 (conj H2 _)).
  exact (no_records_no_states (P:=Exact.platform) [None; Some EmptyString] H1 H2).
Defined.

(** ** The sums of a struct *)

Section Sums.
Context {P : Platform}.
Implicit Types (a : climate_info) (r : record).

(** X9. The records folded into a struct one after the other: the code
    stays, the record count grows by their number modulo 2^64, and each of
    the three sums is the sum it was with the values of the records added
    to it from the left, in the order of the lines. *)
Theorem add_records_sums a (rs : list record) a' :
  0 ≤ num_records a < ULONG_MODULUS →
  add_records a rs = Some a' →
  code a' = code a ∧
  num_records a' = (num_records a + Z.of_nat (length rs)) mod ULONG_MODULUS ∧
  sum_humidity a' = foldl ld_add (sum_humidity a) (humidity_val <$> rs) ∧
  sum_cloudcover a' = foldl ld_add (sum_cloudcover a) (cloudcover_val <$> rs) ∧
  sum_temperature a' = foldl ld_add (sum_temperature a) (temperature_val <$> rs).
Proof.
  revert a. induction rs as [|r rs IH]; intros a Hrange H.
  - injection H as <-. simpl. rewrite Z.add_0_r, Z.mod_small by done. done.
  - simpl in H. destruct (add_record a r) as [a1|] eqn:H1; simpl in H; [|done].
    unfold add_record in H1.
    destruct (fold_record_fields _ _ _ H1) as (Hc & Hn & Ht & Hh & Hcc & _).
    simpl in Hc, Hn, Ht, Hh, Hcc.
    assert (0 ≤ num_records a1 < ULONG_MODULUS) as Hrange1
      by (rewrite Hn; by apply Z.mod_pos_bound).
    destruct (IH _ Hrange1 H) as (-> & -> & -> & -> & ->).
    rewrite Hc, Hn, Ht, Hh, Hcc, !fmap_cons. cbn [foldl length].
    split_and!; [done| |done..].
    rewrite Zplus_mod_idemp_l. f_equal. lia.
Qed.

End Sums.

Lemma add_records_sums_witness :
  0 ≤ num_records sample_fresh < ULONG_MODULUS ∧
  add_records sample_fresh sample_flags_records = Some sample_flags_ca ∧
  code sample_flags_ca = code sample_fresh ∧
  num_records sample_flags_ca
  = (num_records sample_fresh + Z.of_nat (length sample_flags_records))
    mod ULONG_MODULUS ∧
  sum_humidity sample_flags_ca
  = foldl ld_add (sum_humidity sample_fresh) (humidity_val <$> sample_flags_records) ∧
  sum_cloudcover sample_flags_ca
  = foldl ld_add (sum_cloudcover sample_fresh) (cloudcover_val <$> sample_flags_records) ∧
  sum_temperature sample_flags_ca
  = foldl ld_add (sum_temperature sample_fresh) (temperature_val <$> sample_flags_records).
Proof.
  assert (0 ≤ num_records sample_fresh < ULONG_MODULUS) as H1
    by (vm_compute; split; [discriminate|reflexivity]).
  assert (add_records sample_fresh sample_flags_records = Some sample_flags_ca) as H2
    by reflexivity.
  refine (conj H1 (conj H2 _)).
  exact (add_records_sums sample_fresh sample_flags_records sample_flags_ca H1 H2).
Defined.

(** ** The buffers of [fgets] *)

Section Buffers.

Lemma rev_app_append (s acc rest : string) :
  String.rev_app s acc +:+ rest = String.rev_app s (acc +:+ rest).
Proof. revert acc. induction s as [|c s IH]; intros acc; simpl; [done|]. by rewrite IH. Qed.

Lemma rev_app_length (s acc : string) :
  String.length (String.rev_app s acc) = (String.length s + String.length acc)%nat.
Proof.
  revert acc. induction s as [|c s IH]; intros acc; simpl; [done|].
  rewrite IH. simpl. lia.
Qed.

Lemma rev_app_newline_free (s acc : string) :
  newline_free (String.rev_app s acc) = newline_free s && newline_free acc.
Proof.
  revert acc. induction s as [|c s IH]; intros acc; simpl; [done|].
  rewrite IH. simpl. destruct (Ascii.eqb c CString.NEWLINE), (newline_free s); done.
Qed.

Lemma rev_snoc (c : ascii) (cur : string) :
  String.rev (String c cur) = String.rev cur +:+ String c EmptyString.
Proof. unfold String.rev. simpl. by rewrite rev_app_append. Qed.

Lemma buffer_rev n (c : ascii) (cur : string) :
  (String.length cur < n)%nat → newline_free cur = true →
  buffer n (String.rev (String c cur)).
Proof.
  intros Hlen Hfree. split.
  - unfold String.rev. rewrite rev_app_length. simpl. lia.
  - exists (String.rev cur), c. split; [apply rev_snoc|].
    unfold String.rev. by rewrite rev_app_newline_free, Hfree.
Qed.

Lemma fgets_from_buffers (n : nat) (file cur : string) (room : nat) :
  (1 ≤ room)%nat → (String.length cur + room = n - 1)%nat →
  newline_free cur = true →
  foldr String.append EmptyString (CString.fgets_from n file cur room)
  = String.rev cur +:+ file ∧
  Forall (buffer (n - 1)) (CString.fgets_from n file cur room).
Proof.
  revert cur room. induction file as [|c file IH]; intros cur room Hroom Hlen Hfree.
  - simpl. destruct cur as [|c cur]; simpl.
    + split; [done|constructor].
    + split; [done|]. constructor; [|constructor].
      simpl in Hlen, Hfree. apply andb_prop in Hfree as [_ Hfree].
      apply buffer_rev; [lia|done].
  - cbn [CString.fgets_from].
    destruct (Ascii.eqb c CString.NEWLINE || (room =? 1)%nat) eqn:Hend.
    + destruct (IH EmptyString (n - 1)%nat) as [IH1 IH2]; [lia|simpl; lia|done|].
      split.
      * cbn [foldr]. rewrite IH1, rev_snoc. unfold String.rev.
        rewrite !rev_app_append. reflexivity.
      * constructor; [|done]. apply buffer_rev; [lia|done].
    + apply orb_false_elim in Hend as [Hc Hr]. apply Nat.eqb_neq in Hr.
      destruct (IH (String c cur) (room - 1)%nat) as [IH1 IH2];
        [lia|simpl; lia|simpl; by rewrite Hc|].
      split; [|done]. rewrite IH1, rev_snoc.
      unfold String.rev. rewrite !rev_app_append. reflexivity.
Qed.

(** X16. The buffers that the loop of [analyze_file] reads with [fgets] are
    the file cut in pieces: put one after the other they are the file;
    each has between 1 and 99 characters and no newline before its last
    character. A line of the file of more than 99 characters is therefore
    read as several buffers, each taken for a record. *)
Theorem fgets_buffers_partition_file (file : string) :
  foldr String.append EmptyString (CString.fgets line_sz file) = file ∧
  Forall (buffer 99) (CString.fgets line_sz file).
Proof.
  unfold CString.fgets.
  destruct (fgets_from_buffers line_sz file EmptyString (line_sz - 1)) as [H1 H2];
    [unfold line_sz; lia|unfold line_sz; simpl; lia|done|].
  split; [by rewrite H1|done].
Qed.

End Buffers.

(** ** The dates that [print_report] gives to [ctime] *)

Section Dated.
Context {P : Platform}.
Implicit Types (states : table) (a : climate_info).

Lemma fold_record_dated r a a' :
  fold_record r a = Some a' → has_dates a → has_dates a'.
Proof.
  intros Hf [Hmax Hmin]. apply fold_record_extrema in Hf as [Hf1 Hf2]. split.
  - destruct Hf1 as [(_ & -> & _)|(_ & -> & _)]; [done|by eexists].
  - destruct Hf2 as [(_ & -> & _)|(_ & -> & _)]; [done|by eexists].
Qed.

Lemma dated_insert states q a :
  dated states → has_dates a → dated (<[q := Some a]> states).
Proof.
  intros Hs Ha q' b Hb. destruct (decide (q = q')) as [<-|Hne].
  - apply list_lookup_insert_Some in Hb as [(_ & [= <-] & _)|[? _]]; done.
  - rewrite list_lookup_insert_ne in Hb by done. eauto.
Qed.

Lemma dated_empty : dated empty_states.
Proof.
  intros q a Hq. unfold empty_states in Hq.
  apply lookup_replicate in Hq as [? _]. done.
Qed.

Lemma analyze_line_dated states ns line states' ns' :
  analyze_line (states, ns) line = Some (states', ns') →
  line_in_range line = true →
  dated states → dated states'.
Proof.
  intros H Hr Hs. apply analyze_line_Some in H
    as (r & states1 & i & p & a0 & a & a' & Hl & Hg & Ha0 & -> & Ha & Hf & ->).
  unfold line_in_range in Hr. rewrite Hl in Hr.
  apply get_or_create_inv in Hg
    as [_ [(-> & _ & _)|(fresh & idx & _ & _ & _ & Hfresh & -> & [= ->])]].
  - assert (dated (<[Z.to_nat i := Some (count_record a0)]> states)) as Hs2.
    { apply dated_insert; [done|]. apply deref_Some in Ha0. by apply Hs in Ha0. }
    apply dated_insert; [done|].
    apply deref_Some in Ha. eapply fold_record_dated; eauto.
  - assert (Z.to_nat i < length states)%nat as Hlt.
    { apply deref_lt in Ha0. by rewrite length_insert in Ha0. }
    rewrite deref_insert_eq in Ha0 by done. injection Ha0 as <-.
    rewrite deref_insert_eq in Ha by (by rewrite length_insert).
    injection Ha as <-.
    rewrite !list_insert_insert_eq. apply dated_insert; [done|].
    unfold new_climate_info in Hfresh.
    destruct (String.length _ <=? 2)%nat; [|done]. injection Hfresh as <-.
    destruct (fold_record_first _ _ _ Hf eq_refl eq_refl Hr) as (_ & Hmax & _ & Hmin).
    split; by eexists.
Qed.

Lemma analyze_lines_dated lines states ns states' ns' :
  analyze_lines lines (states, ns) = Some (states', ns') →
  forallb line_in_range lines = true →
  dated states → dated states'.
Proof.
  revert states ns. induction lines as [|line lines IH]; intros states ns; simpl.
  - by intros [= <- <-].
  - destruct (analyze_line (states, ns) line) as [[states1 ns1]|] eqn:H1; simpl; [|done].
    intros H [Hl Hls]%andb_prop Hs.
    eapply IH; eauto using analyze_line_dated.
Qed.

Lemma main_loop_dated files states states' :
  main_loop files states = Some states' →
  files_in_range files = true →
  dated states → dated states'.
Proof.
  revert states. induction files as [|[file|] files IH]; intros states; simpl.
  - by intros [= <-].
  - unfold analyze_file.
    destruct (analyze_lines _ (states, None)) as [[states1 ns1]|] eqn:H1; simpl; [|done].
    intros H [Hl Hls]%andb_prop Hs.
    eapply IH; eauto using analyze_lines_dated.
  - intros H Hr Hs. eapply IH; eauto.
Qed.

(** X17. When the Fahrenheit temperature of every record read lies
    strictly between -1000 and 1000, both dates of every struct of the
    array that [main] reports have been assigned: [print_report] gives no
    indeterminate value to [ctime]. *)
Theorem report_dates_are_set (files : list (option string)) states a :
  files_in_range files = true →
  main files = Report states →
  Some a ∈ states →
  ∃ dmax dmin, max_temp_date a = Some dmax ∧ min_temp_date a = Some dmin.
Proof.
  intros Hrange Hmain Ha. unfold main in Hmain.
  destruct files as [|file files]; [done|].
  destruct (main_loop (file :: files) empty_states) as [states'|] eqn:Hloop; [|done].
  injection Hmain as ->.
  apply list_elem_of_lookup in Ha as [q Hq].
  destruct (main_loop_dated _ _ _ Hloop Hrange dated_empty q a Hq)
    as [[dmax Hmax] [dmin Hmin]].
  by exists dmax, dmin.
Qed.

End Dated.

Lemma report_dates_are_set_witness :
  @files_in_range Exact.platform sample_files = true ∧
  @main Exact.platform sample_files = Report sample_report ∧
  Some sample_ca ∈ sample_report ∧
  ∃ dmax dmin, max_temp_date sample_ca = Some dmax ∧ min_temp_date sample_ca = Some dmin.
Proof.
  assert (@files_in_range Exact.platform sample_files = true) as H1
    by (vm_compute; reflexivity).
  assert (Some sample_ca ∈ sample_report) as H3 by (apply list_elem_of_here).
  refine (conj H1 (conj sample_main (conj H3 _))).
  exact (report_dates_are_set sample_files sample_report sample_ca H1 sample_main H3).
Defined.

(** ** A file that begins with a state that is in the array *)

Section KnownFirst.
Context {P : Platform}.
Implicit Types (states : table) (a : climate_info).

(** X18. [new_state] has no initializer and is assigned only when a
    struct is created. When the first buffer of a file is a record of a
    state that [findStateIndex] finds in the array, line 222 reads through
    the uninitialized pointer: the call of [analyze_file] is undefined,
    whatever follows in the file. *)
Theorem known_state_first_is_undefined (file line : string) (rest : list string)
    states (n : nat) (r : record) (i : Z) :
  CString.fgets line_sz file = line :: rest →
  line_record line = Some r →
  findStateIndex states (state_code r) = Some i → 0 ≤ i →
  analyze_file file states n = None.
Proof.
  intros Hfile Hr Hi Hpos. unfold analyze_file. rewrite Hfile. simpl.
  rewrite analyze_line_eq, Hr. simpl.
  unfold get_or_create. rewrite Hi. simpl.
  destruct (Z.ltb_spec i 0); [lia|]. simpl.
  by destruct (store states (Z.to_nat i) _).
Qed.

End KnownFirst.

Lemma known_state_first_is_undefined_witness :
  CString.fgets line_sz sample_later_file = [Sample.wa1; Sample.ca1] ∧
  @line_record Exact.platform Sample.wa1 = Some sample_wa_record ∧
  findStateIndex sample_report (state_code sample_wa_record) = Some 2 ∧
  0 ≤ 2 ∧
  analyze_file sample_later_file sample_report NUM_STATES = None.
Proof.
  assert (CString.fgets line_sz sample_later_file = [Sample.wa1; Sample.ca1]) as H1
    by reflexivity.
  assert (@line_record Exact.platform Sample.wa1 = Some sample_wa_record) as H2
    by reflexivity.
  assert (findStateIndex sample_report (state_code sample_wa_record) = Some 2) as H3
    by reflexivity.
  assert (0 ≤ 2) as H4 by lia.
  refine (conj H1 (conj H2 (conj H3 (conj H4 _)))).
  exact (known_state_first_is_undefined _ _ _ _ NUM_STATES _ _ H1 H2 H3 H4).
Defined.
